(** * Hand tracking optimizer and gesture recognizer: a shallow embedding

    The development follows [hand_tracking_optimizer.py] and
    [gesture_recognition_advanced.py].

    Conventions of the embedding:
    - a Python float is an exact rational ([Qc], canonical fractions with
      Leibniz equality); rounding, infinities and NaN are not represented.
      Statements over this model name the expressions the code evaluates
      or compare values; where a statement is about the rounded result,
      the expression is given again over binary64 (module [F64]);
    - a numpy row of shape (3,) is a [point]; a landmark array of shape
      (n, 3) is a [list point], indexed from 0;
    - a Python exception is a constructor of [exn]; a call that may raise
      returns a [res];
    - a method that mutates [self] returns the new object next to its
      result, also when it raises (the mutations done before the raise
      stay);
    - a [collections.deque] with [maxlen] is a record of the bound and the
      items, oldest first;
    - arrays are values: a caller that overwrites an array in place after
      passing it in is outside the model (the first [update] keeps a view
      of its row until the second one replaces it). *)

From Stdlib Require Import QArith Qcanon Ascii PrimFloat.
From stdpp Require Import base numbers list strings gmap.

Local Open Scope Qc_scope.

(** ** Python runtime pieces *)

Module Py.

Inductive exn : Type :=
| IndexError
| ValueError
| ZeroDivisionError
| TypeError.

Inductive res (A : Type) : Type :=
| Ok (a : A)
| Raise (e : exn).
Arguments Ok {A} a.
Arguments Raise {A} e.

Definition is_ok {A} (r : res A) : bool :=
  match r with Ok _ => true | Raise _ => false end.

(** Decimal literals of the sources. *)
Definition f0_1 : Qc := Q2Qc (1 # 10).
Definition f0_3 : Qc := Q2Qc (3 # 10).
Definition f0_7 : Qc := Q2Qc (7 # 10).
Definition f0_85 : Qc := Q2Qc (85 # 100).
Definition f0_88 : Qc := Q2Qc (88 # 100).
Definition f0_9 : Qc := Q2Qc (9 # 10).
Definition f0_95 : Qc := Q2Qc (95 # 100).
Definition f0_033 : Qc := Q2Qc (33 # 1000).

(** [min(a, b)] of Python: the first of the smallest arguments. *)
Definition min (a b : Qc) : Qc := if decide (b < a) then b else a.

(** [bool * float]: [True] is 1 and [False] is 0. *)
Definition bool_times (b : bool) (w : Qc) : Qc := (if b then 1 else 0) * w.

End Py.
Export Py.

(** ** numpy rows *)

Record point : Type := Point { px : Qc; py : Qc; pz : Qc }.

Definition zero : point := Point 0 0 0.
Definition padd (a b : point) : point :=
  Point (px a + px b) (py a + py b) (pz a + pz b).
Definition psub (a b : point) : point :=
  Point (px a - px b) (py a - py b) (pz a - pz b).
Definition pscale (k : Qc) (a : point) : point :=
  Point (k * px a) (k * py a) (k * pz a).

(** Squared Euclidean distance between two rows. *)
Definition dist2 (a b : point) : Qc :=
  let d := psub a b in px d * px d + py d * py d + pz d * pz d.

(** A landmark array. *)
Abbreviation landmarks := (list point).

(** [np.zeros_like(landmarks)] *)
Definition zeros_like (l : landmarks) : landmarks := replicate (length l) zero.

(** ** collections.deque(maxlen=n) *)

Module Deque.

Record t (A : Type) : Type := Make { maxlen : nat; items : list A }.
Arguments Make {A} maxlen items.
Arguments maxlen {A} _.
Arguments items {A} _.

(** [deque(maxlen=n)]: a negative bound raises [ValueError]. *)
Definition new {A} (n : Z) : res (t A) :=
  if decide (n < 0)%Z then Raise ValueError else Ok (Make (Z.to_nat n) []).

Definition len {A} (d : t A) : nat := length (items d).

(** [append]: the item goes to the right end; when the bound is then
    exceeded the leftmost item is dropped. *)
Definition append {A} (a : A) (d : t A) : t A :=
  let l := items d ++ [a] in
  Make (maxlen d) (if decide (maxlen d < length l)%nat then drop 1 l else l).

End Deque.

(** ** class KalmanFilter *)

Module KalmanFilter.

Record t : Type := Make {
  dt : Qc;
  q : Qc;
  r : Qc;
  x : option point;
  p : option Qc;
  initialized : bool
}.

(** The default of the keyword argument [dt]. *)
Definition default_dt : Qc := f0_033.

(** [__init__(self, dt=0.033)] *)
Definition init (dt : Qc) : t :=
  {| dt := dt; q := f0_1; r := f0_1; x := None; p := None;
     initialized := false |}.

Definition set_p (v : Qc) (f : t) : t :=
  {| dt := dt f; q := q f; r := r f; x := x f; p := Some v;
     initialized := initialized f |}.

Definition set_x (v : point) (f : t) : t :=
  {| dt := dt f; q := q f; r := r f; x := Some v; p := p f;
     initialized := initialized f |}.

Definition set_initialized (b : bool) (f : t) : t :=
  {| dt := dt f; q := q f; r := r f; x := x f; p := p f;
     initialized := b |}.

(** [predict]: [None] before the first observation; afterwards the
    variance grows by [q] and the estimate is returned as it is.
    ([None + float] is a [TypeError].) *)
Definition predict (f : t) : res (option point) * t :=
  if negb (initialized f) then (Ok None, f)
  else match p f with
       | None => (Raise TypeError, f)
       | Some pv => (Ok (x f), set_p (pv + q f) f)
       end.

(** [update]: the first observation is stored as the estimate with
    variance 1.0; later ones are blended in with the gain [k].
    (Float division by zero is a [ZeroDivisionError].) *)
Definition update (f : t) (z : point) : res point * t :=
  if negb (initialized f) then
    (Ok z, set_initialized true (set_p 1 (set_x z f)))
  else match p f, x f with
       | Some pv, Some xv =>
           if decide (pv + r f = 0) then (Raise ZeroDivisionError, f)
           else
             let k := pv / (pv + r f) in
             let xv' := padd xv (pscale k (psub z xv)) in
             (Ok xv', set_p ((1 - k) * pv) (set_x xv' f))
       | _, _ => (Raise TypeError, f)
       end.

End KalmanFilter.

(** ** class HandTrackingOptimizer *)

(** What [handle_occlusion] passes around: Python does not look at the
    type of its [landmarks] argument, and returns either that argument or
    the result of [predict_next_position]. *)
Inductive value : Type :=
| VNone
| VPoint (v : point)
| VLandmarks (l : landmarks).

Module HandTrackingOptimizer.

Record t : Type := Make {
  buffer_size : Z;
  kalman_filters : list KalmanFilter.t;
  position_buffer : Deque.t point;
  velocity_history : Deque.t point
}.

Definition set_kalman_filters (fs : list KalmanFilter.t) (o : t) : t :=
  {| buffer_size := buffer_size o; kalman_filters := fs;
     position_buffer := position_buffer o;
     velocity_history := velocity_history o |}.

(** The default of the keyword argument [buffer_size]. *)
Definition default_buffer_size : Z := 5.

(** [__init__(self, buffer_size=5)]: 21 fresh filters and two empty
    bounded deques. *)
Definition init (buffer_size : Z) : res t :=
  let fs := replicate 21 (KalmanFilter.init KalmanFilter.default_dt) in
  match Deque.new buffer_size with
  | Raise e => Raise e
  | Ok pb =>
      match Deque.new buffer_size with
      | Raise e => Raise e
      | Ok vh =>
          Ok {| buffer_size := buffer_size; kalman_filters := fs;
                position_buffer := pb; velocity_history := vh |}
      end
  end.

(** The body of the loop of [smooth_landmarks], from index [i] on:
    [fs] are the filters not yet visited, [smoothed] the output array
    so far.  The filters come back updated as far as the loop got.

    [update] returns a row, never [None], so the source's test
    [filtered is not None] always takes the [predict] side.  After
    [update] the filter is initialized and [predict] returns an
    estimate; the branch where it would return [None] (numpy would
    store NaN in the row) is given as a [TypeError] and shown
    unreachable below. *)
Fixpoint smooth_loop (l : landmarks) (i : nat) (fs : list KalmanFilter.t)
    (smoothed : landmarks) : res landmarks * list KalmanFilter.t :=
  match fs with
  | [] => (Ok smoothed, [])
  | f :: fs' =>
      match l !! i with
      | None => (Raise IndexError, f :: fs')
      | Some z =>
          match KalmanFilter.update f z with
          | (Raise e, f1) => (Raise e, f1 :: fs')
          | (Ok filtered, f1) =>
              match KalmanFilter.predict f1 with
              | (Raise e, f2) => (Raise e, f2 :: fs')
              | (Ok None, f2) => (Raise TypeError, f2 :: fs')
              | (Ok (Some row), f2) =>
                  let '(out, fs'') :=
                    smooth_loop l (S i) fs' (<[i := row]> smoothed) in
                  (out, f2 :: fs'')
              end
          end
      end
  end.

(** [smooth_landmarks(self, landmarks)] *)
Definition smooth_landmarks (o : t) (lm : option landmarks)
    : res (option landmarks) * t :=
  match lm with
  | None => (Ok None, o)
  | Some l =>
      let '(out, fs) := smooth_loop l 0 (kalman_filters o) (zeros_like l) in
      (match out with Ok s => Ok (Some s) | Raise e => Raise e end,
       set_kalman_filters fs o)
  end.

(** [predict_next_position(self)] *)
Definition predict_next_position (o : t) : option point :=
  let buf := Deque.items (position_buffer o) in
  if decide (length buf < 2)%nat then None
  else
    let recent_positions := drop (length buf - 2) buf in
    match recent_positions with
    | [second_to_last; last] =>
        let velocity := psub last second_to_last in
        Some (padd last velocity)
    | _ => None
    end.

Definition of_prediction (r : option point) : value :=
  match r with None => VNone | Some v => VPoint v end.

(** [handle_occlusion(self, landmarks, confidence)] *)
Definition handle_occlusion (o : t) (lm : value) (confidence : Qc) : value :=
  if decide (confidence < f0_3 ∧ (0 < Deque.len (position_buffer o))%nat)
  then of_prediction (predict_next_position o)
  else lm.

Record quality : Type := Quality { smoothness : Qc; stability : Qc }.

(** [get_tracking_quality(self)]: [int / int] is true division and
    raises on a zero divisor. *)
Definition get_tracking_quality (o : t) : res quality :=
  if decide (buffer_size o = 0%Z) then Raise ZeroDivisionError
  else
    Ok {| smoothness :=
            Qc_of_Z (Z.of_nat (Deque.len (position_buffer o)))
            / Qc_of_Z (buffer_size o);
          stability :=
            if decide (1 < Deque.len (velocity_history o))%nat
            then 1 else 0 |}.

(** The calls a client can make, and the object they leave behind. *)
Inductive call : Type :=
| CallSmooth (lm : option landmarks)
| CallPredictNext
| CallOcclusion (lm : value) (confidence : Qc)
| CallQuality.

Definition after (o : t) (c : call) : t :=
  match c with
  | CallSmooth lm => snd (smooth_landmarks o lm)
  | CallPredictNext => o
  | CallOcclusion _ _ => o
  | CallQuality => o
  end.

Inductive reachable : t -> Prop :=
| reach_init bs o : init bs = Ok o -> reachable o
| reach_call o c : reachable o -> reachable (after o c).

(** The object after the same array was passed to [smooth_landmarks] on
    [n] frames in a row, and what the next frame returns. *)
Fixpoint frames (o : t) (l : landmarks) (n : nat) : t :=
  match n with
  | O => o
  | S n' => snd (smooth_landmarks (frames o l n') (Some l))
  end.

Definition frame_output (o : t) (l : landmarks) (n : nat)
    : res (option landmarks) :=
  fst (smooth_landmarks (frames o l n) (Some l)).

End HandTrackingOptimizer.

(** ** The extrapolation in binary64 *)

(** [predict_next_position] on one coordinate of the buffered arrays, with
    the floats of Python (IEEE 754 binary64, round to nearest even); numpy
    applies the two operations coordinate by coordinate. *)
Module F64.

Definition predict_next_position (buf : list float) : option float :=
  if decide (length buf < 2)%nat then None
  else
    let recent_positions := drop (length buf - 2) buf in
    match recent_positions with
    | [second_to_last; last] =>
        let velocity := PrimFloat.sub last second_to_last in
        Some (PrimFloat.add last velocity)
    | _ => None
    end.


End F64.

(** ** class AdvancedGestureRecognizer *)

Module AdvancedGestureRecognizer.

(** One entry of the gesture table: the key ['fingers_extended'] may be
    missing, ['confidence_weight'] is always there. *)
Record definition : Type := Definition_ {
  fingers_extended : option Z;
  confidence_weight : Qc
}.

Record t : Type := Make {
  history_length : Z;
  gesture_history : Deque.t string;
  confidence_threshold : Qc;
  gesture_definitions : list (string * definition)
}.

Definition set_gesture_history (h : Deque.t string) (g : t) : t :=
  {| history_length := history_length g; gesture_history := h;
     confidence_threshold := confidence_threshold g;
     gesture_definitions := gesture_definitions g |}.

(** [_load_gestures]: the dict literal, in insertion order. *)
Definition _load_gestures : list (string * definition) :=
  [ ("open_palm", Definition_ (Some 5%Z) 1);
    ("fist", Definition_ (Some 0%Z) f0_95);
    ("peace", Definition_ (Some 2%Z) f0_9);
    ("thumbs_up", Definition_ None f0_85);
    ("point", Definition_ (Some 1%Z) f0_88) ].

(** The default of the keyword argument [history_length]. *)
Definition default_history_length : Z := 10.

(** [__init__(self, history_length=10)] *)
Definition init (history_length : Z) : res t :=
  match Deque.new history_length with
  | Raise e => Raise e
  | Ok h =>
      Ok {| history_length := history_length; gesture_history := h;
            confidence_threshold := f0_7;
            gesture_definitions := _load_gestures |}
  end.

Definition finger_tips : list nat := [4; 8; 12; 16; 20]%nat.
Definition finger_pips : list nat := [3; 7; 11; 15; 19]%nat.

(** The loop of [_count_extended_fingers] over the (tip, pip) pairs
    still to visit; an index past the end of the array raises. *)
Fixpoint count_loop (l : landmarks) (pairs : list (nat * nat))
    (extended_count : Z) : res Z :=
  match pairs with
  | [] => Ok extended_count
  | (tip, pip) :: rest =>
      match l !! tip with
      | None => Raise IndexError
      | Some a =>
          match l !! pip with
          | None => Raise IndexError
          | Some b =>
              count_loop l rest
                (if decide (py a < py b) then (extended_count + 1)%Z
                 else extended_count)
          end
      end
  end.

Definition _count_extended_fingers (l : landmarks) : res Z :=
  count_loop l (zip finger_tips finger_pips) 0%Z.

Record hand_shape : Type := HandShape {
  avg_distance : Qc;
  spread : Qc;
  palm_width : Qc
}.

(** A dict assignment [d[k] = v] on a dict kept in insertion order. *)
Fixpoint dict_set {V} (k : string) (v : V) (d : list (string * V))
    : list (string * V) :=
  match d with
  | [] => [(k, v)]
  | (k', v') :: d' =>
      if decide (k' = k) then (k', v) :: d' else (k', v') :: dict_set k v d'
  end.

(** [max(items, key=lambda x: x[1])]: the first item whose key no later
    item exceeds; [ValueError] on an empty sequence is [None] here. *)
Definition max_by_score (items : list (string * Qc))
    : option (string * Qc) :=
  match items with
  | [] => None
  | first :: rest =>
      Some (fold_left
              (fun best item => if decide (snd best < snd item) then item
                                else best)
              rest first)
  end.

(** [_calculate_gesture_score(self, fingers, shape, gesture, definition)] *)
Definition _calculate_gesture_score (fingers : Z) (shape : hand_shape)
    (gesture : string) (d : definition) : Qc :=
  let score := 0 in
  let score :=
    match fingers_extended d with
    | Some n =>
        let finger_match := bool_decide (fingers = n) in
        score + bool_times finger_match (confidence_weight d)
    | None => score
    end in
  Py.min 1 score.

(** [get_gesture_pattern(self)] *)
Definition get_gesture_pattern (g : t) : list string :=
  Deque.items (gesture_history g).

(** [detect_gesture_combination(self)] *)
Definition detect_gesture_combination (g : t) : option string :=
  if decide (Deque.len (gesture_history g) < 3)%nat then None
  else
    let all := Deque.items (gesture_history g) in
    let recent := drop (length all - 3) all in
    if decide (size (list_to_set recent : gset string) = 1%nat) then
      match recent with
      | first :: _ => Some ("sustained_" +:+ first)
      | [] => None
      end
    else Some "combination".

(** [np.linalg.norm] of a planar difference and [np.std] take square
    roots, so they have no rational model; they are left open. *)
Section Shape.
Variable norm : Qc -> Qc -> Qc.
Variable std : list Qc -> Qc.

(** [np.mean] *)
Definition mean (ds : list Qc) : Qc :=
  foldr Qcplus 0 ds / Qc_of_Z (Z.of_nat (length ds)).

(** The loop of [_analyze_hand_shape] over the fingertip indexes. *)
Fixpoint distances_loop (l : landmarks) (palm_center : point)
    (idx : list nat) : res (list Qc) :=
  match idx with
  | [] => Ok []
  | i :: rest =>
      match l !! i with
      | None => Raise IndexError
      | Some a =>
          let dist := norm (px a - px palm_center)
                           (py a - py palm_center) in
          match distances_loop l palm_center rest with
          | Raise e => Raise e
          | Ok ds => Ok (dist :: ds)
          end
      end
  end.

Definition _analyze_hand_shape (l : landmarks) : res hand_shape :=
  match l !! 0%nat with
  | None => Raise IndexError
  | Some palm_center =>
      match distances_loop l palm_center finger_tips with
      | Raise e => Raise e
      | Ok distances =>
          match distances with
          | [] => Raise IndexError
          | d0 :: _ =>
              Ok {| avg_distance := mean distances;
                    spread := std distances;
                    palm_width := d0 |}
          end
      end
  end.

(** The scoring loop of [detect_gesture]: one dict assignment per
    definition. *)
Definition gesture_scores (g : t) (fingers : Z) (shape : hand_shape)
    : list (string * Qc) :=
  fold_left
    (fun scores '(gesture_name, d) =>
       dict_set gesture_name
         (_calculate_gesture_score fingers shape gesture_name d) scores)
    (gesture_definitions g) [].

(** [detect_gesture(self, hand_landmarks)] *)
Definition detect_gesture (g : t) (hand_landmarks : option landmarks)
    : res (string * Qc) * t :=
  match hand_landmarks with
  | None => (Ok ("unknown", 0), g)
  | Some l =>
      match _count_extended_fingers l with
      | Raise e => (Raise e, g)
      | Ok fingers =>
          match _analyze_hand_shape l with
          | Raise e => (Raise e, g)
          | Ok shape =>
              match max_by_score (gesture_scores g fingers shape) with
              | None => (Raise ValueError, g)
              | Some best_gesture =>
                  if decide (confidence_threshold g ≤ snd best_gesture)
                  then
                    (Ok best_gesture,
                     set_gesture_history
                       (Deque.append (fst best_gesture)
                          (gesture_history g)) g)
                  else (Ok ("unknown", 0), g)
              end
          end
      end
  end.

(** A run of [detect_gesture] calls, one per frame. *)
Fixpoint run (g : t) (inputs : list (option landmarks)) : t :=
  match inputs with
  | [] => g
  | lm :: rest => run (snd (detect_gesture g lm)) rest
  end.

End Shape.

End AdvancedGestureRecognizer.

(** ** Sample inputs *)

(** A row with integer coordinates. *)
Definition pt (a b c : Z) : point := Point (Qc_of_Z a) (Qc_of_Z b) (Qc_of_Z c).

(** An optimizer whose position buffer holds the given samples. *)
Definition with_positions (bs : nat) (samples : list point)
    : HandTrackingOptimizer.t :=
  {| HandTrackingOptimizer.buffer_size := Z.of_nat bs;
     HandTrackingOptimizer.kalman_filters :=
       replicate 21 (KalmanFilter.init f0_033);
     HandTrackingOptimizer.position_buffer := Deque.Make bs samples;
     HandTrackingOptimizer.velocity_history := Deque.Make bs [] |}.

(** The optimizer built by [HandTrackingOptimizer(buffer_size=bs)] for a
    bound that is not negative. *)
Definition fresh_optimizer (bs : nat) : HandTrackingOptimizer.t :=
  with_positions bs [].

(** ** A constant input stream *)

(** A filter that follows the row [z] with error variance [pv], with the
    noise constants of [KalmanFilter.__init__]. *)
Definition settled (pv : Qc) (z : point) : KalmanFilter.t :=
  {| KalmanFilter.dt := f0_033; KalmanFilter.q := f0_1;
     KalmanFilter.r := f0_1; KalmanFilter.x := Some z;
     KalmanFilter.p := Some pv; KalmanFilter.initialized := true |}.

(** The error variance after [n + 1] rounds of update-then-predict: 1.0
    plus the process noise after the first, then
    [variance := (1 - k) * variance + q] with [k = variance / (variance + r)]. *)
Fixpoint variance (n : nat) : Qc :=
  match n with
  | O => 1 + f0_1
  | S n' =>
      let v := variance n' in
      let k := v / (v + f0_1) in
      (1 - k) * v + f0_1
  end.

(** ** Sample recognizers *)

(** A recognizer with the default table and threshold whose history holds
    the given names. *)
Definition with_history (cap : nat) (names : list string)
    : AdvancedGestureRecognizer.t :=
  {| AdvancedGestureRecognizer.history_length := Z.of_nat cap;
     AdvancedGestureRecognizer.gesture_history := Deque.Make cap names;
     AdvancedGestureRecognizer.confidence_threshold := f0_7;
     AdvancedGestureRecognizer.gesture_definitions :=
       AdvancedGestureRecognizer._load_gestures |}.

(** The recognizer built by [AdvancedGestureRecognizer(history_length=cap)]. *)
Definition fresh_recognizer (cap : nat) : AdvancedGestureRecognizer.t :=
  with_history cap [].

(** Landmark arrays of 21 rows: a hand with no finger extended (every
    row at the same height), and one with all five extended (each
    fingertip above the joint below it; image rows grow downwards). *)
Definition closed_hand : landmarks := replicate 21 (pt 0 0 0).

Definition open_hand : landmarks :=
  (fun i : nat =>
     if bool_decide (i ∈ AdvancedGestureRecognizer.finger_tips)
     then pt 0 0 0 else pt 0 1 0) <$> seq 0 21.

(** Stand-ins for [np.linalg.norm] and [np.std] where a run needs some. *)
Definition norm0 (dx dy : Qc) : Qc := 0.
Definition std0 (ds : list Qc) : Qc := 0.

(** An array with one row too many. *)
Definition long_hand : landmarks := replicate 22 (pt 1 2 3).

(** An array with one row too few. *)
Definition short_hand : landmarks := replicate 20 (pt 1 2 3).

(** ** Call sequences of a filter *)

(** The two methods of [KalmanFilter], as a client may call them in any
    order. *)
Inductive filter_call : Type :=
| FUpdate (z : point)
| FPredict.

Definition filter_step (f : KalmanFilter.t) (c : filter_call)
    : res (option point) * KalmanFilter.t :=
  match c with
  | FUpdate z =>
      match KalmanFilter.update f z with
      | (Ok v, f') => (Ok (Some v), f')
      | (Raise e, f') => (Raise e, f')
      end
  | FPredict => KalmanFilter.predict f
  end.

Fixpoint filter_run (f : KalmanFilter.t) (cs : list filter_call)
    : KalmanFilter.t :=
  match cs with
  | [] => f
  | c :: rest => filter_run (snd (filter_step f c)) rest
  end.

(** ** Reading the outcome of [detect_gesture] *)

(** The name a call has appended to the history, read off what it
    returned: an accepted pair carries a score that reaches the threshold,
    the ['unknown'] pair carries 0.0. *)
Definition accepted_name (threshold : Qc) (r : res (string * Qc))
    : option string :=
  match r with
  | Ok (name, score) => if decide (threshold ≤ score) then Some name else None
  | Raise _ => None
  end.

(** The names a run of calls appends, in order: each frame is judged on
    the recognizer the run starts from. *)
Definition accepted_names (norm : Qc -> Qc -> Qc) (std : list Qc -> Qc)
    (g : AdvancedGestureRecognizer.t) (inputs : list (option landmarks))
    : list string :=
  omap (fun lm =>
          accepted_name (AdvancedGestureRecognizer.confidence_threshold g)
            (fst (AdvancedGestureRecognizer.detect_gesture norm std g lm)))
    inputs.

(** Several [append] calls in a row. *)
Fixpoint append_all {A} (xs : list A) (d : Deque.t A) : Deque.t A :=
  match xs with
  | [] => d
  | a :: rest => append_all rest (Deque.append a d)
  end.

(** The last [n] items of a list. *)
Definition last_n {A} (n : nat) (xs : list A) : list A :=
  drop (length xs - n) xs.

(** ** main.py *)

Module Main.

Definition f0_05 : Qc := Q2Qc (5 # 100).

(** [landmarks.landmark[i]]: the landmark list of the detector is read
    through its rows [.x], [.y], [.z]; an index past its end raises. *)
Definition landmark (l : landmarks) (i : nat) : res point :=
  match l !! i with
  | Some a => Ok a
  | None => Raise IndexError
  end.

(** The loop of [_get_fingers_up] over the (tip, pip) pairs still to
    visit; [fingers] is the list built so far. *)
Fixpoint fingers_loop (l : landmarks) (pairs : list (nat * nat))
    (fingers : list bool) : res (list bool) :=
  match pairs with
  | [] => Ok fingers
  | (tip, pip) :: rest =>
      match landmark l tip with
      | Raise e => Raise e
      | Ok a =>
          match landmark l pip with
          | Raise e => Raise e
          | Ok b =>
              fingers_loop l rest (fingers ++ [bool_decide (py a < py b)])
          end
      end
  end.

(** [GestureRecognizer._get_fingers_up(self, landmarks)] *)
Definition _get_fingers_up (l : landmarks) : res (list bool) :=
  match landmark l 4 with
  | Raise e => Raise e
  | Ok a =>
      match landmark l 3 with
      | Raise e => Raise e
      | Ok b =>
          fingers_loop l [(8, 6); (12, 10); (16, 14); (20, 18)]%nat
            [bool_decide (px a < px b)]
      end
  end.

(** [all(fingers)] and [any(fingers)] on a list of booleans. *)
Definition all (bs : list bool) : bool := forallb id bs.
Definition any (bs : list bool) : bool := existsb id bs.

(** [fingers[i]] *)
Definition finger (fingers : list bool) (i : nat) : res bool :=
  match fingers !! i with
  | Some b => Ok b
  | None => Raise IndexError
  end.

(** [math.sqrt] has no rational model; it is left open. *)
Section Distance.
Variable sqrt : Qc -> Qc.

(** [calculate_distance(p1, p2)] *)
Definition calculate_distance (p1 p2 : point) : Qc :=
  sqrt ((px p1 - px p2) * (px p1 - px p2)
        + (py p1 - py p2) * (py p1 - py p2)
        + (pz p1 - pz p2) * (pz p1 - pz p2)).

(** The last branch of [recognize]: thumb and index are up. *)
Definition pinch_branch (l : landmarks) : res string :=
  match landmark l 4 with
  | Raise e => Raise e
  | Ok thumb_tip =>
      match landmark l 8 with
      | Raise e => Raise e
      | Ok index_tip =>
          let dist := calculate_distance thumb_tip index_tip in
          if decide (dist < f0_05) then Ok "Pinch" else Ok "Unknown"
      end
  end.

(** [GestureRecognizer.recognize(self, landmarks)]: the chain of tests,
    each [and] evaluated left to right and cut short as Python does. *)
Definition recognize (l : landmarks) : res string :=
  match _get_fingers_up l with
  | Raise e => Raise e
  | Ok fingers =>
      if all fingers then Ok "Open Hand"
      else if negb (any fingers) then Ok "Closed Fist"
      else
        match finger fingers 1 with
        | Raise e => Raise e
        | Ok f1 =>
            if f1 && negb (any (drop 2 fingers)) then Ok "Pointing"
            else
              match (if f1 then finger fingers 2 else Ok false) with
              | Raise e => Raise e
              | Ok f1_and_f2 =>
                  if f1_and_f2 && negb (any (drop 3 fingers))
                  then Ok "Peace Sign"
                  else
                    match finger fingers 0 with
                    | Raise e => Raise e
                    | Ok f0 =>
                        if f0 && negb (any (drop 1 fingers))
                        then Ok "Thumbs Up"
                        else if f0 && f1 then pinch_branch l
                        else Ok "Unknown"
                    end
              end
        end
  end.

End Distance.

(** The flags of the main loop. *)
Record flags : Type := Flags {
  show_hud : bool;
  show_gestures : bool;
  show_debug : bool
}.

(** The flags [main] starts with. *)
Definition initial_flags : flags :=
  {| show_hud := true; show_gestures := true; show_debug := false |}.

(** [ord(c)] *)
Definition ord (c : Ascii.ascii) : Z := Z.of_N (Ascii.N_of_ascii c).

(** The keyboard step of the loop of [main] on the value [cv2.waitKey]
    returned: [None] stands for [break]. *)
Definition handle_key (fl : flags) (wait_key : Z) : option flags :=
  let key := Z.land wait_key 255 in
  if decide (key = ord "q"%char \/ key = 27%Z) then None
  else if decide (key = ord "h"%char) then
    Some {| show_hud := negb (show_hud fl);
            show_gestures := show_gestures fl;
            show_debug := show_debug fl |}
  else if decide (key = ord "g"%char) then
    Some {| show_hud := show_hud fl;
            show_gestures := negb (show_gestures fl);
            show_debug := show_debug fl |}
  else if decide (key = ord "d"%char) then
    Some {| show_hud := show_hud fl;
            show_gestures := show_gestures fl;
            show_debug := negb (show_debug fl) |}
  else Some fl.

(** The loop of [main] as far as the keyboard goes: the flags when the
    keys are used up, or [None] once a key has left the loop. *)
Fixpoint run_keys (fl : flags) (keys : list Z) : option flags :=
  match keys with
  | [] => Some fl
  | k :: rest =>
      match handle_key fl k with
      | None => None
      | Some fl' => run_keys fl' rest
      end
  end.

(** The frame rate shown by the loop of [main]:
    [1 / (curr_time - prev_time) if prev_time > 0 else 0]. *)
Definition fps (prev_time curr_time : Qc) : res Qc :=
  if decide (0 < prev_time) then
    if decide (curr_time - prev_time = 0) then Raise ZeroDivisionError
    else Ok (1 / (curr_time - prev_time))
  else Ok 0.

End Main.

(** ** Predicates of the statements *)

(** [best] is the first item of [items] with the largest score. *)
Definition first_argmax (items : list (string * Qc)) (best : string * Qc)
    : Prop :=
  exists pre post,
    items = pre ++ best :: post /\
    (forall e, e ∈ pre -> snd e < snd best) /\
    (forall e, e ∈ post -> snd e ≤ snd best).

(** A filter with the noise constants of the constructor which, once
    initialized, holds an estimate and a positive variance. *)
Definition filter_ok (f : KalmanFilter.t) : Prop :=
  KalmanFilter.q f = f0_1 /\ KalmanFilter.r f = f0_1 /\
  (KalmanFilter.initialized f = true ->
   exists xv pv,
     KalmanFilter.x f = Some xv /\ KalmanFilter.p f = Some pv /\ 0 < pv).

(** What one pass of update-then-predict on the filter [f] with the
    observation [z] leaves: the row [row] it returns and the filter [f2].
    The returned row is the new estimate; it is the observation itself on
    a filter that had none, and otherwise no further from the observation
    than the old estimate, with the variance moved by
    [variance := (1 - k) * variance + q], [k = variance / (variance + r)]. *)
Definition round_post (f : KalmanFilter.t) (z row : point)
    (f2 : KalmanFilter.t) : Prop :=
  filter_ok f2 /\
  KalmanFilter.initialized f2 = true /\
  KalmanFilter.x f2 = Some row /\
  (KalmanFilter.initialized f = false -> row = z) /\
  (forall xv pv,
     KalmanFilter.initialized f = true ->
     KalmanFilter.x f = Some xv -> KalmanFilter.p f = Some pv ->
     dist2 row z ≤ dist2 xv z /\
     (xv = z -> row = z) /\
     KalmanFilter.p f2 = Some ((1 - pv / (pv + f0_1)) * pv + f0_1)).

(** An optimizer with its 21 filters, all well formed. *)
Definition optimizer_ok (o : HandTrackingOptimizer.t) : Prop :=
  Forall filter_ok (HandTrackingOptimizer.kalman_filters o) /\
  length (HandTrackingOptimizer.kalman_filters o) = 21%nat.

(** A history within its bound. *)
Definition history_bounded (g : AdvancedGestureRecognizer.t) : Prop :=
  (Deque.len (AdvancedGestureRecognizer.gesture_history g)
   <= Deque.maxlen (AdvancedGestureRecognizer.gesture_history g))%nat.

(** What every frame of a constant stream returns: the first 21 rows of
    the input, then zero rows. *)
Definition constant_output (l : landmarks) : landmarks :=
  take 21 l ++ replicate (length l - 21) zero.

(** The row of an array at an index that is there. *)
Definition lm_at (l : landmarks) (i : nat) : point := default zero (l !! i).

(** The five flags that [_get_fingers_up] of [main.py] builds for an array
    with all its rows: the thumb by x-coordinates of rows 4 and 3, the
    other fingers by y-coordinates of tip and joint. *)
Definition finger_flags (l : landmarks) : list bool :=
  [ bool_decide (px (lm_at l 4) < px (lm_at l 3));
    bool_decide (py (lm_at l 8) < py (lm_at l 6));
    bool_decide (py (lm_at l 12) < py (lm_at l 10));
    bool_decide (py (lm_at l 16) < py (lm_at l 14));
    bool_decide (py (lm_at l 20) < py (lm_at l 18)) ].

(** How often a key (by its low byte) occurs in a run of key codes. *)
Definition key_count (c : Ascii.ascii) (keys : list Z) : nat :=
  length (filter (fun k => Z.land k 255 = Main.ord c) keys).

(** * Properties *)

Import KalmanFilter.

(** ** Arithmetic on rows and rationals *)

Lemma point_eq (a b : point) :
  px a = px b -> py a = py b -> pz a = pz b -> a = b.
Proof. destruct a, b; simpl; congruence. Qed.

Lemma padd_psub_self (k : Qc) (z : point) : padd z (pscale k (psub z z)) = z.
Proof. apply point_eq; simpl; ring. Qed.

Lemma dist2_self (a : point) : dist2 a a = 0.
Proof. unfold dist2; simpl; ring. Qed.

Lemma f0_1_pos : 0 < f0_1.
Proof. reflexivity. Qed.

Lemma f0_7_pos : 0 < f0_7.
Proof. reflexivity. Qed.

Lemma Qc_pos_neq0 (a : Qc) : 0 < a -> a <> 0.
Proof. intros H ->. by apply (Qclt_not_eq 0 0). Qed.

(** One minus the gain is the noise share [r / (p + r)]. *)
Lemma gain_complement (pv rv : Qc) :
  pv + rv <> 0 -> (1 - pv / (pv + rv)) * pv = rv * pv / (pv + rv).
Proof. intros H. field. exact H. Qed.

Lemma posterior_variance_pos (pv rv : Qc) :
  0 < pv -> 0 < rv -> 0 < (1 - pv / (pv + rv)) * pv.
Proof.
  intros Hp Hr.
  assert (Hs : 0 < pv + rv) by (by apply Qcplus_pos_pos).
  rewrite gain_complement by (by apply Qc_pos_neq0).
  unfold Qcdiv. apply Qcmult_pos_pos.
  - by apply Qcmult_pos_pos.
  - by apply Qcinv_pos.
Qed.

Lemma Qc_sq_nonneg (a : Qc) : 0 ≤ a * a.
Proof.
  destruct (Qclt_le_dec a 0) as [Hneg | Hpos].
  - replace (a * a) with ((- a) * (- a)) by ring.
    assert (H : 0 ≤ - a).
    { apply Qclt_minus_iff in Hneg.
      replace (0 + - a) with (- a) in Hneg by ring.
      by apply Qclt_le_weak. }
    by apply Qcmult_nonneg_nonneg.
  - by apply Qcmult_nonneg_nonneg.
Qed.

Lemma Qc_shrink (m d : Qc) : 0 ≤ m -> m ≤ 1 -> 0 ≤ d -> m * m * d ≤ d.
Proof.
  intros H0 H1 Hd.
  assert (Hm : m * m ≤ 1).
  { apply Qcle_trans with (1 * m).
    - by apply Qcmult_le_mono_nonneg_r.
    - by rewrite Qcmult_1_l. }
  rewrite <- (Qcmult_1_l d) at 2.
  by apply Qcmult_le_mono_nonneg_r.
Qed.

(** The gain lies strictly between 0 and 1, so its complement does too. *)
Lemma gain_bounds (pv rv : Qc) :
  0 < pv -> 0 < rv -> 0 ≤ 1 - pv / (pv + rv) /\ 1 - pv / (pv + rv) ≤ 1.
Proof.
  intros Hp Hr.
  assert (Hs : 0 < pv + rv) by (by apply Qcplus_pos_pos).
  assert (Hne : pv + rv <> 0) by (by apply Qc_pos_neq0).
  split.
  - replace (1 - pv / (pv + rv)) with (rv / (pv + rv)) by (by field).
    apply Qclt_le_weak. unfold Qcdiv.
    apply Qcmult_pos_pos; [done | by apply Qcinv_pos].
  - apply Qcle_minus_iff.
    replace (1 + - (1 - pv / (pv + rv))) with (pv / (pv + rv)) by (by field).
    apply Qclt_le_weak. unfold Qcdiv.
    apply Qcmult_pos_pos; [done | by apply Qcinv_pos].
Qed.

Lemma dist2_nonneg (a b : point) : 0 ≤ dist2 a b.
Proof.
  unfold dist2. cbv zeta.
  repeat apply Qcplus_nonneg_nonneg; apply Qc_sq_nonneg.
Qed.

(** Blending an estimate with an observation moves it towards the
    observation: the distance shrinks by the factor [1 - k]. *)
Lemma blend_distance (k : Qc) (xv z : point) :
  dist2 (padd xv (pscale k (psub z xv))) z
  = (1 - k) * (1 - k) * dist2 xv z.
Proof. unfold dist2. simpl. ring. Qed.

Lemma blend_contracts (pv rv : Qc) (xv z : point) :
  0 < pv -> 0 < rv ->
  dist2 (padd xv (pscale (pv / (pv + rv)) (psub z xv))) z ≤ dist2 xv z.
Proof.
  intros Hp Hr. rewrite blend_distance.
  destruct (gain_bounds pv rv Hp Hr) as [H0 H1].
  apply Qc_shrink; [done | done | apply dist2_nonneg].
Qed.

(** ** KalmanFilter *)

(** C5 (initialization identity).  On a filter that has seen no
    observation, [update z] stores [z] as the estimate, sets the variance to
    1.0, marks the filter initialized and returns [z]; the [predict] that
    follows returns [z] and leaves the estimate as it is. *)
Theorem update_then_predict_fresh (f : KalmanFilter.t) (z : point) :
  initialized f = false ->
  let '(r1, f1) := update f z in
  let '(r2, f2) := predict f1 in
  r1 = Ok z /\ x f1 = Some z /\ p f1 = Some 1 /\ initialized f1 = true /\
  r2 = Ok (Some z) /\ x f2 = x f1 /\ x f2 = Some z.
Proof.
  intros Hf. unfold update, predict. rewrite Hf. simpl. done.
Qed.

Lemma update_then_predict_fresh_witness :
  let f := KalmanFilter.init f0_033 in
  let z := pt 1 0 (-1) in
  let '(r1, f1) := update f z in
  let '(r2, f2) := predict f1 in
  r1 = Ok z /\ x f1 = Some z /\ p f1 = Some 1 /\ initialized f1 = true /\
  r2 = Ok (Some z) /\ x f2 = x f1 /\ x f2 = Some z.
Proof.
  exact (update_then_predict_fresh (KalmanFilter.init f0_033)
           (pt 1 0 (-1)) eq_refl).
Defined.

(** ** HandTrackingOptimizer: prediction and occlusion *)

Import HandTrackingOptimizer.


Lemma predict_next_position_short (o : HandTrackingOptimizer.t) :
  (Deque.len (position_buffer o) < 2)%nat -> predict_next_position o = None.
Proof.
  intros H. unfold predict_next_position, Deque.len in *.
  by rewrite decide_True.
Qed.







Lemma handle_occlusion_passes (o : HandTrackingOptimizer.t) (lm : value)
    (confidence : Qc) :
  ~ (confidence < f0_3 /\ Deque.items (position_buffer o) <> []) ->
  handle_occlusion o lm confidence = lm.
Proof.
  intros Hn. unfold handle_occlusion, Deque.len.
  rewrite decide_False; [done |].
  intros [Hc Hb]. apply Hn. split; [done |].
  intros E. rewrite E in Hb. simpl in Hb. lia.
Qed.



(** ** HandTrackingOptimizer: the buffers are never written *)

Lemma init_fresh (bs : nat) :
  HandTrackingOptimizer.init (Z.of_nat bs) = Ok (fresh_optimizer bs).
Proof.
  unfold HandTrackingOptimizer.init, Deque.new.
  rewrite decide_False by lia.
  unfold fresh_optimizer, with_positions. by rewrite Nat2Z.id.
Qed.

Lemma init_buffers (bs : Z) (o : HandTrackingOptimizer.t) :
  HandTrackingOptimizer.init bs = Ok o ->
  Deque.items (position_buffer o) = [] /\
  Deque.items (velocity_history o) = [].
Proof.
  unfold HandTrackingOptimizer.init, Deque.new.
  destruct (decide (bs < 0)%Z); [discriminate |].
  intros [= <-]. done.
Qed.

Lemma after_buffers (o : HandTrackingOptimizer.t) (c : call) :
  position_buffer (after o c) = position_buffer o /\
  velocity_history (after o c) = velocity_history o /\
  buffer_size (after o c) = buffer_size o.
Proof.
  destruct c as [[l |] | | |]; simpl; try done.
  by destruct (smooth_loop l 0 (kalman_filters o) (zeros_like l)).
Qed.

Lemma reachable_buffers (o : HandTrackingOptimizer.t) :
  reachable o ->
  Deque.items (position_buffer o) = [] /\
  Deque.items (velocity_history o) = [].
Proof.
  induction 1 as [bs o Hinit | o c _ [IHp IHv]].
  - by apply (init_buffers bs).
  - destruct (after_buffers o c) as (-> & -> & _). done.
Qed.

Lemma Qc_of_Z_0 : Qc_of_Z 0 = 0.
Proof. by apply Qc_is_canon. Qed.

(** C1, as the code has it.  In every state reachable from construction
    the position buffer and the velocity history are empty; hence
    [predict_next_position] returns [None], [handle_occlusion] returns its
    landmarks argument for every confidence, and, when [buffer_size] is not
    zero, [get_tracking_quality] reports smoothness 0.0 and stability 0.0. *)
Theorem buffers_stay_empty (o : HandTrackingOptimizer.t) :
  reachable o ->
  Deque.items (position_buffer o) = [] /\
  Deque.items (velocity_history o) = [] /\
  predict_next_position o = None /\
  (forall (lm : value) (confidence : Qc),
     handle_occlusion o lm confidence = lm) /\
  (buffer_size o <> 0%Z ->
   get_tracking_quality o = Ok {| smoothness := 0; stability := 0 |}).
Proof.
  intros Hr. destruct (reachable_buffers o Hr) as [Hp Hv].
  split; [done |]. split; [done |]. split; [| split].
  - apply predict_next_position_short. unfold Deque.len. rewrite Hp. simpl. lia.
  - intros lm c. apply handle_occlusion_passes. intros [_ H]. by apply H.
  - intros Hbs. unfold get_tracking_quality, Deque.len.
    rewrite decide_False by done. rewrite Hp, Hv.
    change (Z.of_nat (length (@nil point))) with 0%Z.
    rewrite Qc_of_Z_0, decide_False by (simpl; lia).
    unfold Qcdiv. by rewrite Qcmult_0_l.
Qed.

Lemma buffers_stay_empty_witness :
  let o := after (fresh_optimizer 5)
             (CallSmooth (Some (replicate 21 (pt 1 2 3)))) in
  Deque.items (position_buffer o) = [] /\
  Deque.items (velocity_history o) = [] /\
  predict_next_position o = None /\
  (forall (lm : value) (confidence : Qc),
     handle_occlusion o lm confidence = lm) /\
  (buffer_size o <> 0%Z ->
   get_tracking_quality o = Ok {| smoothness := 0; stability := 0 |}).
Proof.
  apply (buffers_stay_empty
           (after (fresh_optimizer 5)
              (CallSmooth (Some (replicate 21 (pt 1 2 3)))))).
  apply reach_call. apply (reach_init 5%Z). reflexivity.
Defined.

(** C1, as the claim has it, fails on an optimizer built with
    [buffer_size=0]: the deque bound 0 is accepted, and
    [get_tracking_quality] divides by it. *)
Lemma quality_zero_buffer_raises :
  HandTrackingOptimizer.init 0 = Ok (fresh_optimizer 0) /\
  reachable (fresh_optimizer 0) /\
  get_tracking_quality (fresh_optimizer 0) = Raise ZeroDivisionError /\
  get_tracking_quality (fresh_optimizer 0)
  <> Ok {| smoothness := 0; stability := 0 |}.
Proof.
  split; [exact (init_fresh 0) |].
  split; [apply (reach_init 0%Z); exact (init_fresh 0) |].
  split; [reflexivity | discriminate].
Qed.

(** ** KalmanFilter: well-formed filters never raise *)

Lemma init_ok (d : Qc) : filter_ok (KalmanFilter.init d).
Proof. repeat split. discriminate. Qed.

(** One pass of update-then-predict on a well-formed filter. *)
Lemma round_ok (f : KalmanFilter.t) (z : point) :
  filter_ok f ->
  exists v f1 row f2,
    update f z = (Ok v, f1) /\ predict f1 = (Ok (Some row), f2) /\
    round_post f z row f2.
Proof.
  intros (Hq & Hr & Hi). unfold update.
  destruct (initialized f) eqn:E; simpl.
  - destruct (Hi eq_refl) as (xv & pv & Hx & Hp & Hpos).
    rewrite Hp, Hx, Hr.
    assert (Hs : pv + f0_1 <> 0).
    { apply Qc_pos_neq0, Qcplus_pos_pos; [done | exact f0_1_pos]. }
    rewrite decide_False by done.
    eexists _, _, _, _. split; [reflexivity |].
    unfold predict. simpl. rewrite E. simpl. split; [reflexivity |].
    assert (Hpost : 0 < (1 - pv / (pv + f0_1)) * pv + q f).
    { rewrite Hq. apply Qcplus_pos_pos; [| exact f0_1_pos].
      apply posterior_variance_pos; [done | exact f0_1_pos]. }
    split; [| split; [done | split; [done | split; [by rewrite E |]]]].
    + repeat split; simpl; try done. intros _. by eexists _, _.
    + intros xv' pv' _ Hx' Hp'. rewrite Hx in Hx'. rewrite Hp in Hp'.
      injection Hx' as <-. injection Hp' as <-. split; [| split].
      * apply blend_contracts; [done | exact f0_1_pos].
      * intros ->. apply padd_psub_self.
      * simpl. by rewrite Hq.
  - eexists _, _, _, _. split; [reflexivity |].
    unfold predict. simpl. split; [reflexivity |].
    split; [| split; [done | split; [done | split; [done |]]]].
    + repeat split; simpl; try done. intros _. eexists _, _.
      repeat split. rewrite Hq.
      apply Qcplus_pos_pos; [done | exact f0_1_pos].
    + intros xv pv Hinit. rewrite E in Hinit. discriminate Hinit.
Qed.

(** The loop over well-formed filters: it runs to the end when the array
    has a row for each filter, and stops with [IndexError] when not. *)
Lemma smooth_loop_ok (l : landmarks) (fs : list KalmanFilter.t) :
  Forall filter_ok fs ->
  forall (i : nat) (smoothed : landmarks),
    (i + length fs <= length l)%nat -> length smoothed = length l ->
    exists out fs',
      smooth_loop l i fs smoothed = (Ok out, fs') /\
      Forall filter_ok fs' /\ length fs' = length fs /\
      length out = length smoothed /\
      (forall j, (j < i)%nat \/ (i + length fs <= j)%nat ->
                 out !! j = smoothed !! j) /\
      (forall k f, fs !! k = Some f ->
         exists z row f2,
           l !! (i + k)%nat = Some z /\ out !! (i + k)%nat = Some row /\
           fs' !! k = Some f2 /\ round_post f z row f2).
Proof.
  induction 1 as [| f fs Hf Hfs IH]; intros i smoothed Hlen Hsm.
  - exists smoothed, []. repeat split; try done.
  - simpl in Hlen. cbn [smooth_loop].
    destruct (lookup_lt_is_Some_2 l i) as [z Hz]; [lia |]. rewrite Hz.
    destruct (round_ok f z Hf) as (v & f1 & row & f2 & -> & -> & Hpost).
    destruct (IH (S i) (<[i := row]> smoothed)) as
      (out & fs' & -> & Hfs' & Hl & Ho & Hrows & Hrounds);
      [lia | by rewrite length_insert |].
    exists out, (f2 :: fs'). split; [done |].
    split; [constructor; [apply Hpost | done] |]. split; [simpl; lia |].
    split; [by rewrite Ho, length_insert |]. split.
    + intros j Hj. simpl in Hj. rewrite Hrows by lia.
      apply list_lookup_insert_ne. lia.
    + intros [| k] f' Hk.
      * injection Hk as <-. exists z, row, f2.
        rewrite Nat.add_0_r. split; [done |]. split; [| done].
        rewrite Hrows by lia. apply list_lookup_insert_eq. lia.
      * destruct (Hrounds k f' Hk) as (z' & row' & f2' & H1 & H2 & H3 & H4).
        exists z', row', f2'.
        replace (i + S k)%nat with (S i + k)%nat by lia. done.
Qed.

Lemma smooth_loop_short (l : landmarks) (fs : list KalmanFilter.t) :
  Forall filter_ok fs ->
  forall (i : nat) (smoothed : landmarks),
    (i <= length l < i + length fs)%nat ->
    exists fs',
      smooth_loop l i fs smoothed = (Raise IndexError, fs') /\
      Forall filter_ok fs' /\ length fs' = length fs.
Proof.
  induction 1 as [| f fs Hf Hfs IH]; intros i smoothed Hlen.
  - simpl in Hlen. lia.
  - simpl in Hlen. cbn [smooth_loop].
    destruct (l !! i) as [z |] eqn:Hz.
    + apply lookup_lt_Some in Hz.
      destruct (round_ok f z Hf) as (v & f1 & row & f2 & -> & -> & Hpost).
      destruct (IH (S i) (<[i := row]> smoothed)) as
        (fs' & -> & Hfs' & Hl); [lia |].
      exists (f2 :: fs'). split; [done |].
      split; [constructor; [apply Hpost | done] | simpl; lia].
    + exists (f :: fs). split; [done |]. split; [by constructor | done].
Qed.

Lemma init_optimizer_ok (bs : Z) (o : HandTrackingOptimizer.t) :
  HandTrackingOptimizer.init bs = Ok o -> optimizer_ok o.
Proof.
  unfold HandTrackingOptimizer.init, Deque.new.
  destruct (decide (bs < 0)%Z); [discriminate |].
  intros [= <-]. split; simpl; [| done].
  repeat constructor; discriminate.
Qed.

(** A pass over an array with all its rows, on well-formed filters. *)
Lemma smooth_landmarks_rounds (o : HandTrackingOptimizer.t) (l : landmarks) :
  optimizer_ok o -> (21 <= length l)%nat ->
  exists out fs',
    smooth_landmarks o (Some l) = (Ok (Some out), set_kalman_filters fs' o) /\
    optimizer_ok (set_kalman_filters fs' o) /\
    length out = length l /\
    (forall j, (21 <= j < length l)%nat -> out !! j = Some zero) /\
    (forall k f, kalman_filters o !! k = Some f ->
       exists z row f2,
         l !! k = Some z /\ out !! k = Some row /\
         fs' !! k = Some f2 /\ round_post f z row f2).
Proof.
  intros [Hfs Hlen] Hl. unfold smooth_landmarks.
  destruct (smooth_loop_ok l _ Hfs 0%nat (zeros_like l))
    as (out & fs' & -> & Hfs' & Hl' & Ho & Hrows & Hrounds);
    [lia | apply length_replicate |].
  exists out, fs'. split; [done |].
  split; [split; simpl; [done | lia] |].
  unfold zeros_like in *. rewrite length_replicate in Ho.
  split; [done |]. split; [| done].
  intros j Hj. rewrite Hrows by lia. apply lookup_replicate_2. lia.
Qed.

Lemma smooth_landmarks_ok (o : HandTrackingOptimizer.t)
    (lm : option landmarks) :
  optimizer_ok o -> optimizer_ok (snd (smooth_landmarks o lm)).
Proof.
  intros Hok. destruct lm as [l |]; [| done].
  destruct (decide (21 <= length l)%nat) as [Hl | Hl].
  - by destruct (smooth_landmarks_rounds o l Hok Hl) as (out & fs' & -> & ? & _).
  - destruct Hok as [Hfs Hlen]. unfold smooth_landmarks.
    destruct (smooth_loop_short l _ Hfs 0%nat (zeros_like l))
      as (fs' & -> & Hfs' & Hl'); [lia |].
    split; simpl; [done | lia].
Qed.

Lemma reachable_ok (o : HandTrackingOptimizer.t) :
  reachable o -> optimizer_ok o.
Proof.
  induction 1 as [bs o Hinit | o c _ IH].
  - by apply (init_optimizer_ok bs).
  - destruct c; simpl; try done. by apply smooth_landmarks_ok.
Qed.

Lemma frames_ok (o : HandTrackingOptimizer.t) (l : landmarks) (n : nat) :
  optimizer_ok o -> optimizer_ok (frames o l n).
Proof.
  intros Hok. induction n as [| n IH]; [done |].
  cbn [frames]. by apply smooth_landmarks_ok.
Qed.

(** ** A constant input stream *)

Lemma variance_pos (n : nat) : 0 < variance n.
Proof.
  induction n as [| n IH]; [reflexivity |].
  simpl. apply Qcplus_pos_pos; [| exact f0_1_pos].
  apply posterior_variance_pos; [exact IH | exact f0_1_pos].
Qed.

(** One round on a filter that has seen nothing yet. *)
Lemma round_fresh (z : point) :
  exists v f1,
    update (KalmanFilter.init f0_033) z = (Ok v, f1) /\
    predict f1 = (Ok (Some z), settled (variance 0) z).
Proof. eexists _, _. split; reflexivity. Qed.

(** One round on a filter whose estimate is the observation: the estimate
    stays, the variance moves by the recurrence. *)
Lemma round_settled (pv : Qc) (z : point) :
  0 < pv ->
  exists v f1,
    update (settled pv z) z = (Ok v, f1) /\
    predict f1
    = (Ok (Some z), settled ((1 - pv / (pv + f0_1)) * pv + f0_1) z).
Proof.
  intros Hp. unfold update. simpl.
  rewrite decide_False
    by (apply Qc_pos_neq0, Qcplus_pos_pos; [done | exact f0_1_pos]).
  eexists _, _. split; [reflexivity |].
  unfold predict. simpl. by rewrite padd_psub_self.
Qed.

(** The loop over filters that all return the row they are given. *)
Lemma smooth_loop_const (g g' : point -> KalmanFilter.t) (l : landmarks) :
  (forall z, exists v f1,
      update (g z) z = (Ok v, f1) /\ predict f1 = (Ok (Some z), g' z)) ->
  forall (zs : list point) (i : nat) (smoothed : landmarks),
    (i + length zs <= length smoothed)%nat ->
    (forall k z, zs !! k = Some z -> l !! (i + k)%nat = Some z) ->
    smooth_loop l i (g <$> zs) smoothed
    = (Ok (take i smoothed ++ zs ++ drop (i + length zs) smoothed),
       g' <$> zs).
Proof.
  intros Hround zs.
  induction zs as [| z zs IH]; intros i smoothed Hlen Hrows.
  - simpl. by rewrite Nat.add_0_r, take_drop.
  - simpl in Hlen. cbn [smooth_loop fmap list_fmap].
    pose proof (Hrows 0%nat z eq_refl) as Hz.
    rewrite Nat.add_0_r in Hz. rewrite Hz.
    destruct (Hround z) as (v & f1 & -> & ->).
    rewrite IH.
    + rewrite (take_S_r _ i z) by (apply list_lookup_insert_eq; lia).
      rewrite take_insert_ge by lia.
      rewrite drop_insert_lt by lia.
      rewrite <- app_assoc. simpl.
      by replace (i + S (length zs))%nat with (S (i + length zs)) by lia.
    + rewrite length_insert. lia.
    + intros k z' Hk. replace (S i + k)%nat with (i + S k)%nat by lia.
      by apply Hrows.
Qed.

Lemma constant_output_shape (l : landmarks) (smoothed : landmarks) :
  (21 <= length l)%nat -> smoothed = zeros_like l ->
  take 0 smoothed ++ take 21 l ++ drop (0 + length (take 21 l)) smoothed
  = constant_output l.
Proof.
  intros Hl ->. unfold constant_output, zeros_like.
  rewrite length_take_le by lia. simpl.
  by rewrite drop_replicate.
Qed.

Lemma smooth_landmarks_const (g g' : point -> KalmanFilter.t)
    (o : HandTrackingOptimizer.t) (l : landmarks) :
  (forall z, exists v f1,
      update (g z) z = (Ok v, f1) /\ predict f1 = (Ok (Some z), g' z)) ->
  (21 <= length l)%nat ->
  kalman_filters o = g <$> take 21 l ->
  smooth_landmarks o (Some l)
  = (Ok (Some (constant_output l)), set_kalman_filters (g' <$> take 21 l) o).
Proof.
  intros Hround Hl Hfs. unfold smooth_landmarks. rewrite Hfs.
  rewrite (smooth_loop_const g g' l Hround).
  - by rewrite (constant_output_shape l _ Hl eq_refl).
  - rewrite length_take_le by lia. unfold zeros_like.
    rewrite length_replicate. lia.
  - intros k z Hk. simpl. by apply lookup_take_Some in Hk as [Hk _].
Qed.

Lemma fresh_filters (bs : Z) (o : HandTrackingOptimizer.t) (l : landmarks) :
  HandTrackingOptimizer.init bs = Ok o -> (21 <= length l)%nat ->
  kalman_filters o = (fun _ => KalmanFilter.init f0_033) <$> take 21 l.
Proof.
  unfold HandTrackingOptimizer.init, Deque.new.
  destruct (decide (bs < 0)%Z); [discriminate |].
  intros [= <-] Hl. simpl.
  rewrite (const_fmap _ (take 21 l) (KalmanFilter.init f0_033)) by done.
  by rewrite length_take_le by lia.
Qed.

(** After [n + 1] frames all filters are settled on their row, with the
    same variance; every frame returns the same array. *)
Lemma frames_constant (bs : Z) (o : HandTrackingOptimizer.t) (l : landmarks) :
  HandTrackingOptimizer.init bs = Ok o -> (21 <= length l)%nat ->
  forall n,
    kalman_filters (frames o l (S n)) = settled (variance n) <$> take 21 l /\
    frame_output o l n = Ok (Some (constant_output l)).
Proof.
  intros Hinit Hl. induction n as [| n [IHf _]].
  - unfold frame_output. cbn [frames].
    rewrite (smooth_landmarks_const _ (settled (variance 0)) o l
               round_fresh Hl (fresh_filters bs o l Hinit Hl)).
    done.
  - unfold frame_output. cbn [frames] in *.
    rewrite (smooth_landmarks_const (settled (variance n))
               (settled (variance (S n))) _ l
               (fun z => round_settled (variance n) z (variance_pos n))
               Hl IHf).
    done.
Qed.







(** ** Bounded deques *)

Lemma deque_append_maxlen {A} (a : A) (d : Deque.t A) :
  Deque.maxlen (Deque.append a d) = Deque.maxlen d.
Proof. done. Qed.

Lemma deque_append_room {A} (a : A) (d : Deque.t A) :
  (Deque.len d < Deque.maxlen d)%nat ->
  Deque.items (Deque.append a d) = Deque.items d ++ [a].
Proof.
  unfold Deque.len, Deque.append. intros H. simpl.
  rewrite decide_False; [done |]. rewrite length_app. simpl. lia.
Qed.

Lemma deque_append_full {A} (a : A) (d : Deque.t A) :
  Deque.len d = Deque.maxlen d -> (0 < Deque.maxlen d)%nat ->
  Deque.items (Deque.append a d) = drop 1 (Deque.items d) ++ [a].
Proof.
  unfold Deque.len, Deque.append. intros H Hpos. simpl.
  rewrite decide_True by (rewrite length_app; simpl; lia).
  destruct (Deque.items d); [simpl in H; lia | done].
Qed.

Lemma deque_append_zero {A} (a : A) (d : Deque.t A) :
  Deque.len d = Deque.maxlen d -> Deque.maxlen d = 0%nat ->
  Deque.items (Deque.append a d) = Deque.items d.
Proof.
  unfold Deque.len, Deque.append. intros H H0. simpl.
  rewrite decide_True by (rewrite length_app; simpl; lia).
  destruct (Deque.items d); [done | simpl in H; lia].
Qed.

Lemma deque_append_bounded {A} (a : A) (d : Deque.t A) :
  (Deque.len d <= Deque.maxlen d)%nat ->
  (Deque.len (Deque.append a d) <= Deque.maxlen (Deque.append a d))%nat.
Proof.
  unfold Deque.len, Deque.append. intros H. simpl.
  destruct (decide _) as [Hd | Hd].
  - rewrite length_drop, length_app. simpl. lia.
  - lia.
Qed.

(** ** AdvancedGestureRecognizer: temporal patterns *)

Import AdvancedGestureRecognizer.

Lemma drop_last_three {A} (pre : list A) (a b c : A) :
  drop (length (pre ++ [a; b; c]) - 3) (pre ++ [a; b; c]) = [a; b; c].
Proof.
  rewrite length_app. simpl.
  replace (length pre + 3 - 3)%nat with (length pre) by lia.
  by rewrite drop_app_length.
Qed.

Lemma set_of_three_size (a b c : string) :
  size (list_to_set [a; b; c] : gset string) = 1%nat <-> a = b /\ b = c.
Proof.
  split.
  - intros H. apply size_1_elem_of in H as [y Hy].
    assert (Hin : forall s, s ∈ [a; b; c] -> s = y).
    { intros s Hs.
      apply (elem_of_list_to_set (C := gset string)) in Hs.
      rewrite Hy in Hs. by apply elem_of_singleton in Hs. }
    rewrite (Hin a), (Hin b), (Hin c); [done | | |];
      apply list_elem_of_In; simpl; auto.
  - intros [-> ->].
    rewrite !list_to_set_cons, list_to_set_nil.
    rewrite (right_id_L ∅ (∪)), !(idemp_L (∪)).
    apply size_singleton.
Qed.

(** C7.  [detect_gesture_combination] returns [None] when the history
    holds fewer than 3 entries; otherwise it returns ["sustained_" + name]
    when the last 3 entries are all that one name, and ["combination"] when
    they are not all the same. *)
Theorem detect_gesture_combination_spec (g : AdvancedGestureRecognizer.t) :
  ((Deque.len (gesture_history g) < 3)%nat ->
   detect_gesture_combination g = None) /\
  (forall (pre : list string) (a b c : string),
     Deque.items (gesture_history g) = pre ++ [a; b; c] ->
     (a = b /\ b = c ->
      detect_gesture_combination g = Some ("sustained_" +:+ a)) /\
     (~ (a = b /\ b = c) ->
      detect_gesture_combination g = Some "combination")).
Proof.
  unfold detect_gesture_combination, Deque.len. split.
  - intros H. by rewrite decide_True.
  - intros pre a b c E. rewrite E.
    rewrite decide_False by (rewrite length_app; simpl; lia).
    rewrite drop_last_three.
    split; intros H.
    + rewrite decide_True; [done | by apply set_of_three_size].
    + rewrite decide_False; [done |]. by rewrite set_of_three_size.
Qed.

Lemma detect_gesture_combination_spec_witness :
  detect_gesture_combination (with_history 10 ["fist"; "fist"]) = None /\
  detect_gesture_combination (with_history 10 ["fist"; "fist"; "fist"])
  = Some "sustained_fist" /\
  detect_gesture_combination (with_history 10 ["fist"; "peace"; "fist"])
  = Some "combination".
Proof.
  split; [| split].
  - apply (proj1 (detect_gesture_combination_spec
                    (with_history 10 ["fist"; "fist"]))).
    unfold Deque.len. simpl. lia.
  - apply (proj2 (detect_gesture_combination_spec
                    (with_history 10 ["fist"; "fist"; "fist"]))
             [] "fist" "fist" "fist" eq_refl).
    done.
  - apply (proj2 (detect_gesture_combination_spec
                    (with_history 10 ["fist"; "peace"; "fist"]))
             [] "fist" "peace" "fist" eq_refl).
    intros [H _]. discriminate H.
Defined.

(** ** AdvancedGestureRecognizer: reading the landmark array *)

Lemma count_loop_ok (l : landmarks) (pairs : list (nat * nat)) :
  Forall (fun tp => (fst tp < length l)%nat /\ (snd tp < length l)%nat) pairs ->
  forall acc, exists n,
    count_loop l pairs acc = Ok n /\
    (acc <= n <= acc + Z.of_nat (length pairs))%Z.
Proof.
  induction 1 as [| [tip pip] pairs [Ht Hp] _ IH]; intros acc.
  - exists acc. simpl. split; [done | lia].
  - cbn [count_loop]. simpl in Ht, Hp.
    destruct (lookup_lt_is_Some_2 l tip Ht) as [a ->].
    destruct (lookup_lt_is_Some_2 l pip Hp) as [b ->].
    destruct (IH (if decide (py a < py b) then (acc + 1)%Z else acc))
      as (n & -> & Hn).
    exists n. split; [done |].
    destruct (decide (py a < py b)); simpl length; lia.
Qed.

Lemma count_loop_raises (l : landmarks) (pairs : list (nat * nat)) :
  Exists (fun tp => (length l <= fst tp)%nat \/ (length l <= snd tp)%nat) pairs ->
  forall acc, count_loop l pairs acc = Raise IndexError.
Proof.
  induction 1 as [[tip pip] pairs Hbad | [tip pip] pairs _ IH]; intros acc;
    cbn [count_loop].
  - simpl in Hbad.
    destruct (l !! tip) as [a |] eqn:Ea; [| done].
    destruct (l !! pip) as [b |] eqn:Eb; [| done].
    apply lookup_lt_Some in Ea, Eb. lia.
  - destruct (l !! tip) as [a |]; [| done].
    destruct (l !! pip) as [b |]; [| done].
    apply IH.
Qed.

Lemma count_loop_ext (l l' : landmarks) (pairs : list (nat * nat)) :
  Forall (fun tp => l !! fst tp = l' !! fst tp /\ l !! snd tp = l' !! snd tp)
    pairs ->
  forall acc, count_loop l pairs acc = count_loop l' pairs acc.
Proof.
  induction 1 as [| [tip pip] pairs [Ht Hp] _ IH]; intros acc; [done |].
  cbn [count_loop]. simpl in Ht, Hp. rewrite Ht, Hp.
  destruct (l' !! tip); [| done]. destruct (l' !! pip); [| done]. apply IH.
Qed.

Lemma count_extended_fingers_ok (l : landmarks) :
  (21 <= length l)%nat ->
  exists n, _count_extended_fingers l = Ok n /\ (0 <= n <= 5)%Z.
Proof.
  intros Hl. unfold _count_extended_fingers.
  destruct (count_loop_ok l (zip finger_tips finger_pips)) with (acc := 0%Z)
    as (n & Hn & Hb).
  - repeat constructor; simpl; lia.
  - exists n. split; [done |]. simpl in Hb. lia.
Qed.

Lemma count_extended_fingers_short (l : landmarks) :
  (length l < 21)%nat -> _count_extended_fingers l = Raise IndexError.
Proof.
  intros Hl. apply count_loop_raises.
  do 4 apply Exists_cons_tl. apply Exists_cons_hd. simpl. lia.
Qed.

Lemma count_extended_fingers_take (l : landmarks) :
  _count_extended_fingers l = _count_extended_fingers (take 21 l).
Proof.
  apply count_loop_ext.
  repeat constructor; simpl; by rewrite lookup_take_lt by lia.
Qed.

Section ShapeFacts.
Variable norm : Qc -> Qc -> Qc.
Variable std : list Qc -> Qc.

Lemma distances_loop_ok (l : landmarks) (c : point) (idx : list nat) :
  Forall (fun i => (i < length l)%nat) idx ->
  exists ds, distances_loop norm l c idx = Ok ds /\ length ds = length idx.
Proof.
  induction 1 as [| i idx Hi _ (ds & IH & Hlen)].
  - by exists [].
  - cbn [distances_loop].
    destruct (lookup_lt_is_Some_2 l i Hi) as [a ->]. rewrite IH.
    eexists. split; [done |]. simpl. lia.
Qed.

Lemma analyze_hand_shape_ok (l : landmarks) :
  (21 <= length l)%nat -> exists s, _analyze_hand_shape norm std l = Ok s.
Proof.
  intros Hl. unfold _analyze_hand_shape.
  destruct (lookup_lt_is_Some_2 l 0%nat) as [c ->]; [lia |].
  destruct (distances_loop_ok l c finger_tips) as (ds & -> & Hlen).
  - repeat constructor; lia.
  - destruct ds; [discriminate Hlen |]. by eexists.
Qed.

End ShapeFacts.

(** ** AdvancedGestureRecognizer: scoring *)

Lemma min_one_zero : Py.min 1 0 = 0.
Proof. unfold Py.min. by rewrite decide_True. Qed.

Lemma min_one_le (w : Qc) : w ≤ 1 -> Py.min 1 w = w.
Proof.
  intros Hw. unfold Py.min. destruct (decide (w < 1)) as [| Hn]; [done |].
  apply Qcle_antisym; [by apply Qcnot_lt_le | done].
Qed.

Lemma score_with_count (fingers : Z) (shape : hand_shape) (name : string)
    (d : definition) (n : Z) :
  fingers_extended d = Some n -> confidence_weight d ≤ 1 ->
  _calculate_gesture_score fingers shape name d
  = if decide (fingers = n) then confidence_weight d else 0.
Proof.
  intros Hn Hw. unfold _calculate_gesture_score, bool_times. rewrite Hn.
  destruct (decide (fingers = n)) as [E | E].
  - rewrite bool_decide_true by done.
    replace (0 + 1 * confidence_weight d) with (confidence_weight d) by ring.
    by apply min_one_le.
  - rewrite bool_decide_false by done.
    replace (0 + 0 * confidence_weight d) with 0 by ring.
    apply min_one_zero.
Qed.

Lemma score_without_count (fingers : Z) (shape : hand_shape) (name : string)
    (d : definition) :
  fingers_extended d = None ->
  _calculate_gesture_score fingers shape name d = 0.
Proof.
  intros Hn. unfold _calculate_gesture_score. rewrite Hn. apply min_one_zero.
Qed.

Lemma dict_set_fresh {V} (k : string) (v : V) (d : list (string * V)) :
  k ∉ d.*1 -> dict_set k v d = d ++ [(k, v)].
Proof.
  induction d as [| [k' v'] d IH]; intros Hk; [done |].
  cbn [dict_set]. rewrite fmap_cons, not_elem_of_cons in Hk.
  destruct Hk as [Hne Hk]. simpl in Hne.
  rewrite decide_False by congruence. by rewrite IH.
Qed.


Lemma fold_dict_set_fresh {V} (F : string -> definition -> V)
    (defs : list (string * definition)) :
  forall acc : list (string * V),
    NoDup (acc.*1 ++ defs.*1) ->
    fold_left (fun scores '(k, d) => dict_set k (F k d) scores) defs acc
    = acc ++ ((fun kd => (fst kd, F (fst kd) (snd kd))) <$> defs).
Proof.
  induction defs as [| [k d] defs IH]; intros acc Hnd.
  - simpl. by rewrite app_nil_r.
  - cbn [fold_left]. rewrite fmap_cons in Hnd. simpl in Hnd.
    apply NoDup_app in Hnd as (Ha & Hdisj & Hd).
    apply NoDup_cons in Hd as [Hk Hd].
    rewrite dict_set_fresh.
    + rewrite IH.
      * rewrite <- app_assoc. done.
      * rewrite fmap_app. simpl. rewrite <- app_assoc. simpl.
        apply NoDup_app. split; [done |]. split.
        -- intros y Hy Hy'. apply elem_of_cons in Hy' as [-> | Hy'].
           ++ apply (Hdisj k Hy). by left.
           ++ apply (Hdisj y Hy). by right.
        -- by apply NoDup_cons.
    + intros Hin. apply (Hdisj k Hin). by left.
Qed.


Lemma gesture_scores_map (g : AdvancedGestureRecognizer.t) (fingers : Z)
    (shape : hand_shape) :
  NoDup (gesture_definitions g).*1 ->
  gesture_scores g fingers shape
  = (fun kd => (fst kd,
                _calculate_gesture_score fingers shape (fst kd) (snd kd)))
    <$> gesture_definitions g.
Proof.
  intros Hnd. unfold gesture_scores.
  by rewrite (fold_dict_set_fresh
                (_calculate_gesture_score fingers shape) _ []).
Qed.


(** ** AdvancedGestureRecognizer: the winning item *)

Lemma first_argmax_elem (items : list (string * Qc)) (best : string * Qc) :
  first_argmax items best -> best ∈ items.
Proof.
  intros (pre & post & -> & _). apply elem_of_app. right. by left.
Qed.

Lemma max_by_score_first_argmax (items : list (string * Qc)) :
  items <> [] ->
  exists best, max_by_score items = Some best /\ first_argmax items best.
Proof.
  destruct items as [| first rest]; [done |]. intros _.
  unfold max_by_score. eexists. split; [reflexivity |].
  induction rest as [| item rest IH] using rev_ind.
  - exists [], []. simpl. repeat split; intros e He; by apply elem_of_nil in He.
  - rewrite fold_left_app. simpl.
    destruct IH as (pre & post & E & Hpre & Hpost).
    set (b := fold_left _ rest first) in *.
    destruct (decide (snd b < snd item)) as [Hlt | Hge].
    + exists (pre ++ b :: post), []. split.
      * by rewrite app_comm_cons, E.
      * split; [| intros e He; by apply elem_of_nil in He].
        intros e He. apply elem_of_app in He as [He | He].
        -- by apply Qclt_trans with (snd b); [apply Hpre |].
        -- apply elem_of_cons in He as [-> | He]; [done |].
           by apply Qcle_lt_trans with (snd b); [apply Hpost |].
    + exists pre, (post ++ [item]). split.
      * rewrite app_comm_cons, E. by rewrite <- app_assoc.
      * split; [done |].
        intros e He. apply elem_of_app in He as [He | He]; [by apply Hpost |].
        apply list_elem_of_singleton in He as ->. by apply Qcnot_lt_le.
Qed.

(** ** AdvancedGestureRecognizer: detect_gesture *)

Section Detect.
Variable norm : Qc -> Qc -> Qc.
Variable std : list Qc -> Qc.

(** What a call can do: leave the object alone (with the ['unknown']
    pair or an exception), or accept the winning item of the score
    table. *)
Lemma detect_gesture_cases (g : AdvancedGestureRecognizer.t)
    (lm : option landmarks) :
  (snd (detect_gesture norm std g lm) = g /\
   (fst (detect_gesture norm std g lm) = Ok ("unknown", 0) \/
    exists e, fst (detect_gesture norm std g lm) = Raise e)) \/
  (exists l fingers shape best,
      lm = Some l /\
      _count_extended_fingers l = Ok fingers /\
      _analyze_hand_shape norm std l = Ok shape /\
      first_argmax (gesture_scores g fingers shape) best /\
      confidence_threshold g ≤ snd best /\
      detect_gesture norm std g lm
      = (Ok best,
         set_gesture_history
           (Deque.append (fst best) (gesture_history g)) g)).
Proof.
  destruct lm as [l |]; [| left; split; [done | by left]].
  unfold AdvancedGestureRecognizer.detect_gesture.
  destruct (_count_extended_fingers l) as [fingers | e] eqn:Ec;
    [| left; split; [done | right; by eexists]].
  destruct (_analyze_hand_shape norm std l) as [shape | e] eqn:Es;
    [| left; split; [done | right; by eexists]].
  destruct (max_by_score (gesture_scores g fingers shape)) as [best |] eqn:Em;
    [| left; split; [done | right; by eexists]].
  destruct (decide (confidence_threshold g ≤ snd best)) as [Hge | Hlt];
    [| left; split; [done | by left]].
  right. exists l, fingers, shape, best. repeat split; try done.
  destruct (gesture_scores g fingers shape) as [| i rest] eqn:E;
    [discriminate |].
  destruct (max_by_score_first_argmax (i :: rest)) as (b & Hb & Harg);
    [done |].
  rewrite Hb in Em. by injection Em as <-.
Qed.



(** The fields a call never writes. *)
Lemma detect_gesture_static (g : AdvancedGestureRecognizer.t)
    (lm : option landmarks) :
  let g' := snd (detect_gesture norm std g lm) in
  history_length g' = history_length g /\
  confidence_threshold g' = confidence_threshold g /\
  gesture_definitions g' = gesture_definitions g /\
  Deque.maxlen (gesture_history g') = Deque.maxlen (gesture_history g).
Proof.
  destruct (detect_gesture_cases g lm)
    as [[-> _] | (l & fingers & shape & best & _ & _ & _ & _ & _ & ->)]; done.
Qed.

(** The history after a call: as before, or with one name appended. *)
Lemma detect_gesture_history (g : AdvancedGestureRecognizer.t)
    (lm : option landmarks) :
  let g' := snd (detect_gesture norm std g lm) in
  gesture_history g' = gesture_history g \/
  exists fingers shape best,
    best ∈ gesture_scores g fingers shape /\
    confidence_threshold g ≤ snd best /\
    gesture_history g' = Deque.append (fst best) (gesture_history g).
Proof.
  destruct (detect_gesture_cases g lm)
    as [[-> _] | (l & fingers & shape & best & _ & _ & _ & Harg & Hge & ->)];
    [by left | right].
  exists fingers, shape, best. split; [by apply first_argmax_elem | done].
Qed.

Lemma detect_gesture_bounded (g : AdvancedGestureRecognizer.t)
    (lm : option landmarks) :
  history_bounded g -> history_bounded (snd (detect_gesture norm std g lm)).
Proof.
  unfold history_bounded. intros Hb.
  destruct (detect_gesture_history g lm) as [-> | (_ & _ & best & _ & _ & ->)];
    [done |].
  by apply deque_append_bounded.
Qed.

Lemma run_bounded (inputs : list (option landmarks)) :
  forall g : AdvancedGestureRecognizer.t,
    history_bounded g ->
    history_bounded (run norm std g inputs) /\
    Deque.maxlen (gesture_history (run norm std g inputs))
    = Deque.maxlen (gesture_history g).
Proof.
  induction inputs as [| lm inputs IH]; intros g Hb; [done |].
  cbn [run].
  destruct (IH _ (detect_gesture_bounded g lm Hb)) as [Hb' ->].
  split; [done |]. apply detect_gesture_static.
Qed.

Lemma init_recognizer (hl : Z) (g : AdvancedGestureRecognizer.t) :
  AdvancedGestureRecognizer.init hl = Ok g ->
  (0 <= hl)%Z /\ g = fresh_recognizer (Z.to_nat hl).
Proof.
  unfold AdvancedGestureRecognizer.init, Deque.new.
  destruct (decide (hl < 0)%Z); [discriminate |].
  intros [= <-]. split; [lia |].
  unfold fresh_recognizer, with_history. by rewrite Z2Nat.id by lia.
Qed.

(** ** Definitions without a finger count *)

Lemma assoc_functional {V} (l : list (string * V)) (k : string) (v1 v2 : V) :
  NoDup l.*1 -> (k, v1) ∈ l -> (k, v2) ∈ l -> v1 = v2.
Proof.
  induction l as [| [k' v'] l IH]; intros Hnd H1 H2.
  - by apply elem_of_nil in H1.
  - rewrite fmap_cons in Hnd. apply NoDup_cons in Hnd as [Hk Hnd].
    apply elem_of_cons in H1 as [E1 | H1]; apply elem_of_cons in H2 as [E2 | H2].
    + congruence.
    + injection E1 as <- <-. exfalso. apply Hk.
      apply (list_elem_of_fmap_2 fst) in H2. done.
    + injection E2 as <- <-. exfalso. apply Hk.
      apply (list_elem_of_fmap_2 fst) in H1. done.
    + by apply IH.
Qed.

Lemma uncounted_never_wins (g : AdvancedGestureRecognizer.t) (fingers : Z)
    (shape : hand_shape) (name : string) (d : definition)
    (best : string * Qc) :
  NoDup (gesture_definitions g).*1 ->
  (name, d) ∈ gesture_definitions g ->
  fingers_extended d = None ->
  0 < confidence_threshold g ->
  best ∈ gesture_scores g fingers shape ->
  confidence_threshold g ≤ snd best ->
  fst best <> name.
Proof.
  intros Hnd Hin Hnone Hthr Hbest Hge Hname.
  rewrite gesture_scores_map in Hbest by done.
  apply list_elem_of_fmap in Hbest as ([k d'] & -> & Hkd).
  simpl in Hname, Hge. subst k.
  rewrite (assoc_functional _ name d' d Hnd Hkd Hin) in Hge.
  rewrite score_without_count in Hge by done.
  by apply (Qclt_not_le _ _ Hthr).
Qed.

Lemma deque_append_elem {A} (a x : A) (d : Deque.t A) :
  x ∈ Deque.items (Deque.append a d) -> x = a \/ x ∈ Deque.items d.
Proof.
  unfold Deque.append. simpl. intros Hx.
  assert (Hx' : x ∈ Deque.items d ++ [a]).
  { destruct (decide _); [| done].
    apply (subseteq_drop 1 (Deque.items d ++ [a])). done. }
  apply elem_of_app in Hx' as [Hx' | Hx']; [by right | left].
  by apply list_elem_of_singleton in Hx'.
Qed.

Lemma load_gestures_nodup : NoDup _load_gestures.*1.
Proof. apply (bool_decide_unpack _). by vm_compute. Qed.

Lemma thumbs_up_listed :
  ("thumbs_up", Definition_ None f0_85) ∈ _load_gestures.
Proof. unfold _load_gestures. rewrite !elem_of_cons. auto 10. Qed.

Lemma run_without_thumbs_up (inputs : list (option landmarks)) :
  forall g : AdvancedGestureRecognizer.t,
    gesture_definitions g = _load_gestures ->
    confidence_threshold g = f0_7 ->
    "thumbs_up" ∉ get_gesture_pattern g ->
    "thumbs_up" ∉ get_gesture_pattern (run norm std g inputs).
Proof.
  induction inputs as [| lm inputs IH]; intros g Hdefs Hthr Hnot; [done |].
  cbn [run].
  destruct (detect_gesture_static g lm) as (_ & Ht & Hd & _).
  apply IH; [congruence | congruence |].
  unfold get_gesture_pattern in *.
  destruct (detect_gesture_history g lm)
    as [-> | (fingers & shape & best & Hin & Hge & ->)]; [done |].
  intros Hx. apply deque_append_elem in Hx as [Hx | Hx]; [| done].
  symmetry in Hx. revert Hx.
  apply (uncounted_never_wins g fingers shape "thumbs_up"
           (Definition_ None f0_85) best); try done.
  - rewrite Hdefs. apply load_gestures_nodup.
  - rewrite Hdefs. apply thumbs_up_listed.
  - rewrite Hthr. exact f0_7_pos.
Qed.

(** C4.  The score of a definition (with a weight of at most 1) is its
    [confidence_weight] when it names a finger count and the count found
    is that one, and 0.0 otherwise.  A definition that names no finger
    count scores 0.0 on every input; with a positive threshold it is never
    the gesture that [detect_gesture] accepts, and ['thumbs_up'] never
    enters the history of a recognizer built by the constructor. *)
Theorem score_is_weight_on_match :
  (forall (fingers : Z) (shape : hand_shape) (name : string) (d : definition),
     confidence_weight d ≤ 1 ->
     _calculate_gesture_score fingers shape name d
     = match fingers_extended d with
       | Some n => if decide (fingers = n) then confidence_weight d else 0
       | None => 0
       end) /\
  (forall (fingers : Z) (shape : hand_shape) (name : string) (d : definition),
     fingers_extended d = None ->
     _calculate_gesture_score fingers shape name d = 0) /\
  (forall (g : AdvancedGestureRecognizer.t) (lm : option landmarks)
          (name : string) (d : definition),
     NoDup (gesture_definitions g).*1 ->
     (name, d) ∈ gesture_definitions g ->
     fingers_extended d = None ->
     0 < confidence_threshold g ->
     forall (r : string * Qc) (g' : AdvancedGestureRecognizer.t),
       detect_gesture norm std g lm = (Ok r, g') ->
       (r = ("unknown", 0) /\ g' = g) \/
       (fst r <> name /\
        g' = set_gesture_history
               (Deque.append (fst r) (gesture_history g)) g)) /\
  (forall (hl : Z) (g0 : AdvancedGestureRecognizer.t)
          (inputs : list (option landmarks)),
     AdvancedGestureRecognizer.init hl = Ok g0 ->
     "thumbs_up" ∉ get_gesture_pattern (run norm std g0 inputs)).
Proof.
  split; [| split; [| split]].
  - intros fingers shape name d Hw.
    destruct (fingers_extended d) as [n |] eqn:E.
    + by apply score_with_count.
    + by apply score_without_count.
  - intros. by apply score_without_count.
  - intros g lm name d Hnd Hin Hnone Hthr r g' Hcall.
    destruct (detect_gesture_cases g lm)
      as [[Hg [Hr | [e Hr]]]
         | (l & fingers & shape & best & _ & _ & _ & Hb & Hge & E)].
    + left. rewrite Hcall in Hg, Hr. simpl in Hg, Hr.
      split; [congruence | done].
    + rewrite Hcall in Hr. discriminate Hr.
    + right. rewrite Hcall in E. injection E as -> ->.
      split; [| done].
      apply (uncounted_never_wins g fingers shape name d best); try done.
      by apply first_argmax_elem.
  - intros hl g0 inputs Hinit.
    destruct (init_recognizer hl g0 Hinit) as [_ ->].
    apply run_without_thumbs_up; try done.
    unfold get_gesture_pattern. simpl. apply not_elem_of_nil.
Qed.

(** ** Arrays that do not have 21 rows *)

Lemma detect_gesture_short (g : AdvancedGestureRecognizer.t) (l : landmarks) :
  (length l < 21)%nat ->
  detect_gesture norm std g (Some l) = (Raise IndexError, g).
Proof.
  intros Hl. unfold AdvancedGestureRecognizer.detect_gesture.
  by rewrite count_extended_fingers_short.
Qed.

Lemma smooth_landmarks_short (o : HandTrackingOptimizer.t) (l : landmarks) :
  reachable o -> (length l < 21)%nat ->
  fst (smooth_landmarks o (Some l)) = Raise IndexError.
Proof.
  intros Hr Hl. destruct (reachable_ok o Hr) as [Hfs Hlen].
  unfold smooth_landmarks.
  destruct (smooth_loop_short l _ Hfs 0%nat (zeros_like l)) as (fs' & -> & _);
    [lia | done].
Qed.

Lemma smooth_landmarks_long (o : HandTrackingOptimizer.t) (l : landmarks) :
  reachable o -> (21 <= length l)%nat ->
  exists out,
    fst (smooth_landmarks o (Some l)) = Ok (Some out) /\
    length out = length l /\
    forall j, (21 <= j < length l)%nat -> out !! j = Some zero.
Proof.
  intros Hr Hl.
  destruct (smooth_landmarks_rounds o l (reachable_ok o Hr) Hl)
    as (out & fs' & -> & _ & Ho & Hz & _).
  by exists out.
Qed.

(** C3, as the code has it.  An array with fewer than 21 rows makes both
    components raise [IndexError], which differs from what they return for
    a missing array ([None], and [('unknown', 0.0)]); the recognizer then
    leaves its history as it is.  An array with more than 21 rows is
    accepted: the finger count reads the first 21 rows only, and the
    smoothed array has the length of the input with zero rows from index 21
    on. *)
Theorem row_count_mismatch (l : landmarks) :
  ((length l < 21)%nat ->
   _count_extended_fingers l = Raise IndexError /\
   (forall g : AdvancedGestureRecognizer.t,
      detect_gesture norm std g (Some l) = (Raise IndexError, g)) /\
   (forall o : HandTrackingOptimizer.t,
      reachable o -> fst (smooth_landmarks o (Some l)) = Raise IndexError)) /\
  (forall g : AdvancedGestureRecognizer.t,
     detect_gesture norm std g None = (Ok ("unknown", 0), g)) /\
  (forall o : HandTrackingOptimizer.t,
     smooth_landmarks o None = (Ok None, o)) /\
  ((21 < length l)%nat ->
   (exists n, _count_extended_fingers l = Ok n /\
              _count_extended_fingers (take 21 l) = Ok n) /\
   (forall o : HandTrackingOptimizer.t,
      reachable o ->
      exists out,
        fst (smooth_landmarks o (Some l)) = Ok (Some out) /\
        length out = length l /\
        forall j, (21 <= j < length l)%nat -> out !! j = Some zero)).
Proof.
  split; [| split; [done | split; [done |]]].
  - intros Hl. split; [by apply count_extended_fingers_short |].
    split.
    + intros g. by apply detect_gesture_short.
    + intros o Hr. by apply smooth_landmarks_short.
  - intros Hl. split.
    + destruct (count_extended_fingers_ok l) as (n & Hn & _); [lia |].
      exists n. split; [done |]. by rewrite <- count_extended_fingers_take.
    + intros o Hr. apply smooth_landmarks_long; [done | lia].
Qed.

End Detect.

(** ** Concrete runs *)

Lemma init_fresh_recognizer (cap : nat) :
  AdvancedGestureRecognizer.init (Z.of_nat cap) = Ok (fresh_recognizer cap).
Proof.
  unfold AdvancedGestureRecognizer.init, Deque.new.
  rewrite decide_False by lia.
  unfold fresh_recognizer, with_history. by rewrite Nat2Z.id.
Qed.

(** The two hands of the spec's examples. *)
Example closed_hand_is_fist :
  exists score,
    fst (detect_gesture norm0 std0 (fresh_recognizer 10) (Some closed_hand))
    = Ok ("fist", score) /\ score = f0_95.
Proof.
  eexists. split; [vm_compute; reflexivity |].
  apply Qc_is_canon. reflexivity.
Qed.

Example open_hand_is_open_palm :
  exists score,
    fst (detect_gesture norm0 std0 (fresh_recognizer 10) (Some open_hand))
    = Ok ("open_palm", score) /\ score = 1.
Proof.
  eexists. split; [vm_compute; reflexivity |].
  apply Qc_is_canon. reflexivity.
Qed.

Example oldest_name_is_evicted :
  get_gesture_pattern
    (run norm0 std0 (fresh_recognizer 2)
       [Some closed_hand; Some open_hand; None; Some closed_hand])
  = ["open_palm"; "fist"].
Proof. vm_compute. reflexivity. Qed.


Lemma score_is_weight_on_match_witness :
  _calculate_gesture_score 0 (HandShape 0 0 0) "fist"
    (Definition_ (Some 0%Z) f0_95)
  = f0_95 /\
  _calculate_gesture_score 0 (HandShape 0 0 0) "thumbs_up"
    (Definition_ None f0_85)
  = 0 /\
  (exists r g',
      detect_gesture norm0 std0 (fresh_recognizer 10) (Some closed_hand)
      = (Ok r, g') /\
      ((r = ("unknown", 0) /\ g' = fresh_recognizer 10) \/
       (fst r <> "thumbs_up" /\
        g' = set_gesture_history
               (Deque.append (fst r) (gesture_history (fresh_recognizer 10)))
               (fresh_recognizer 10)))) /\
  "thumbs_up" ∉ get_gesture_pattern
                  (run norm0 std0 (fresh_recognizer 10)
                     [Some open_hand; Some closed_hand]).
Proof.
  destruct (score_is_weight_on_match norm0 std0) as (Hw & Hn & Hd & Hr).
  split; [| split; [| split]].
  - apply (Hw 0%Z (HandShape 0 0 0) "fist" (Definition_ (Some 0%Z) f0_95)).
    simpl. by vm_compute.
  - apply (Hn 0%Z (HandShape 0 0 0) "thumbs_up" (Definition_ None f0_85)).
    reflexivity.
  - eexists _, _. split; [vm_compute; reflexivity |].
    apply (Hd (fresh_recognizer 10) (Some closed_hand) "thumbs_up"
             (Definition_ None f0_85)).
    + apply (bool_decide_unpack _). vm_compute. exact I.
    + exact thumbs_up_listed.
    + reflexivity.
    + reflexivity.
    + vm_compute; reflexivity.
  - apply (Hr 10%Z (fresh_recognizer 10)). reflexivity.
Defined.

Lemma row_count_mismatch_witness :
  (_count_extended_fingers short_hand = Raise IndexError /\
   (forall g : AdvancedGestureRecognizer.t,
      detect_gesture norm0 std0 g (Some short_hand) = (Raise IndexError, g)) /\
   (forall o : HandTrackingOptimizer.t,
      reachable o ->
      fst (smooth_landmarks o (Some short_hand)) = Raise IndexError)) /\
  (exists n, _count_extended_fingers long_hand = Ok n /\
             _count_extended_fingers (take 21 long_hand) = Ok n) /\
  (exists out,
      fst (smooth_landmarks (fresh_optimizer 5) (Some long_hand))
      = Ok (Some out) /\
      length out = length long_hand /\
      forall j, (21 <= j < length long_hand)%nat -> out !! j = Some zero).
Proof.
  split; [| split].
  - apply (proj1 (row_count_mismatch norm0 std0 short_hand)). simpl. lia.
  - apply (proj2 (proj2 (proj2 (row_count_mismatch norm0 std0 long_hand)))).
    simpl. lia.
  - apply (proj2 (proj2 (proj2 (row_count_mismatch norm0 std0 long_hand)))).
    + simpl. lia.
    + apply (reach_init 5%Z). reflexivity.
Defined.

(** C3, as the claim has it, fails on an array of 22 rows: neither
    component raises; the recognizer counts fingers on the first 21 rows,
    and the optimizer returns 22 rows, the last one zero where the input
    row is not. *)
Lemma long_array_is_accepted :
  length long_hand = 22%nat /\
  _count_extended_fingers long_hand = Ok 0%Z /\
  is_ok (fst (detect_gesture norm0 std0 (fresh_recognizer 10)
                (Some long_hand))) = true /\
  fst (smooth_landmarks (fresh_optimizer 5) (Some long_hand))
  = Ok (Some (constant_output long_hand)) /\
  constant_output long_hand !! 21%nat = Some zero /\
  long_hand !! 21%nat = Some (pt 1 2 3) /\
  pt 1 2 3 <> zero.
Proof.
  split; [reflexivity |]. split; [vm_compute; reflexivity |].
  split; [vm_compute; reflexivity |]. split.
  - assert (Hl : (21 <= length long_hand)%nat) by (simpl; lia).
    exact (proj2 (frames_constant 5 (fresh_optimizer 5) long_hand
                    (init_fresh 5) Hl 0%nat)).
  - split; [reflexivity |]. split; [reflexivity |].
    intros H. apply (f_equal px) in H. vm_compute in H. discriminate H.
Qed.

(** * Further properties *)

(** ** KalmanFilter under any order of calls *)


Lemma update_keeps_ok (f : KalmanFilter.t) (z : point) :
  filter_ok f ->
  exists v f1,
    update f z = (Ok v, f1) /\ filter_ok f1 /\ initialized f1 = true.
Proof.
  intros (Hq & Hr & Hi). unfold update.
  destruct (initialized f) eqn:E; simpl.
  - destruct (Hi eq_refl) as (xv & pv & -> & -> & Hp). rewrite Hr.
    rewrite decide_False
      by (apply Qc_pos_neq0, Qcplus_pos_pos; [done | exact f0_1_pos]).
    eexists _, _. split; [reflexivity |]. split; [| by simpl].
    repeat split; simpl; try done.
    intros _. eexists _, _. repeat split.
    apply posterior_variance_pos; [done | exact f0_1_pos].
  - eexists _, _. split; [reflexivity |]. split; [| done].
    repeat split; simpl; try done.
    intros _. by eexists _, _.
Qed.

Lemma predict_keeps_ok (f : KalmanFilter.t) :
  filter_ok f ->
  exists v f2,
    predict f = (Ok v, f2) /\ filter_ok f2 /\
    initialized f2 = initialized f /\ x f2 = x f /\
    v = (if initialized f then x f else None).
Proof.
  intros (Hq & Hr & Hi). unfold predict.
  destruct (initialized f) eqn:E; simpl.
  - destruct (Hi eq_refl) as (xv & pv & Hx & Hp & Hpos). rewrite Hp.
    eexists _, _. split; [reflexivity |].
    split; [| by simpl].
    split; [done |]. split; [done |].
    intros _. exists xv, (pv + q f). simpl. split; [done |]. split; [done |].
    rewrite Hq. apply Qcplus_pos_pos; [done | exact f0_1_pos].
  - exists None, f. split; [done |]. split; [| done].
    split; [done |]. split; [done |]. intros H. rewrite E in H. discriminate H.
Qed.

Lemma filter_step_ok (f : KalmanFilter.t) (c : filter_call) :
  filter_ok f ->
  is_ok (fst (filter_step f c)) = true /\
  filter_ok (snd (filter_step f c)) /\
  (initialized (snd (filter_step f c)) = true <->
   initialized f = true \/ exists z, c = FUpdate z).
Proof.
  intros Hok. destruct c as [z |]; simpl.
  - destruct (update_keeps_ok f z Hok) as (v & f1 & -> & Hf1 & Hi1). simpl.
    split; [done |]. split; [done |]. split; [| done].
    intros _. right. by exists z.
  - destruct (predict_keeps_ok f Hok) as (v & f2 & -> & Hf2 & Hi2 & _). simpl.
    split; [done |]. split; [done |]. rewrite Hi2. split; [by left |].
    intros [H | [z H]]; [done | discriminate H].
Qed.

Lemma filter_run_ok (cs : list filter_call) :
  forall f : KalmanFilter.t,
    filter_ok f ->
    filter_ok (filter_run f cs) /\
    (initialized (filter_run f cs) = true <->
     initialized f = true \/ exists z, FUpdate z ∈ cs).
Proof.
  induction cs as [| c cs IH]; intros f Hok.
  - simpl. split; [done |]. split; [by left |].
    intros [H | [z H]]; [done | by apply elem_of_nil in H].
  - cbn [filter_run].
    destruct (filter_step_ok f c Hok) as (_ & Hok' & Hinit).
    destruct (IH _ Hok') as [Hrun Hiff]. split; [done |].
    rewrite Hiff, Hinit. split.
    + intros [[H | [z ->]] | [z H]].
      * by left.
      * right. exists z. by left.
      * right. exists z. by right.
    + intros [H | [z H]]; [by left; left |].
      apply elem_of_cons in H as [<- | H].
      * left. right. by exists z.
      * right. by exists z.
Qed.

(** X1.  Whatever the order in which [update] and [predict] are called on
    a filter built by the constructor, no call raises; and [predict]
    returns [None] exactly when no [update] came before it. *)
Theorem filter_calls_never_raise (d : Qc) (cs : list filter_call)
    (c : filter_call) :
  is_ok (fst (filter_step (filter_run (KalmanFilter.init d) cs) c)) = true /\
  (fst (predict (filter_run (KalmanFilter.init d) cs)) = Ok None <->
   ~ exists z, FUpdate z ∈ cs).
Proof.
  destruct (filter_run_ok cs (KalmanFilter.init d) (init_ok d)) as [Hok Hiff].
  split; [by apply filter_step_ok |].
  destruct (predict_keeps_ok _ Hok) as (v & f2 & E & _ & _ & _ & Hv).
  rewrite E. simpl. subst v.
  destruct (initialized (filter_run (KalmanFilter.init d) cs)) eqn:Ei.
  - destruct Hok as (_ & _ & Hx). destruct (Hx Ei) as (xv & pv & -> & _).
    split; [discriminate |].
    intros Hn. exfalso. apply Hn.
    destruct (proj1 Hiff eq_refl) as [H | H]; [discriminate H | done].
  - split; [| done]. intros _ Hex.
    assert (H : false = true) by (apply Hiff; by right). discriminate H.
Qed.







(** ** HandTrackingOptimizer: one filter per landmark *)

(** The loop, with the calls it makes on each filter. *)
Lemma smooth_loop_rows (l : landmarks) (fs : list KalmanFilter.t) :
  Forall filter_ok fs ->
  forall (i : nat) (smoothed : landmarks),
    (i + length fs <= length l)%nat -> length smoothed = length l ->
    exists out fs',
      smooth_loop l i fs smoothed = (Ok out, fs') /\
      (forall j, (j < i)%nat -> out !! j = smoothed !! j) /\
      (forall k f, fs !! k = Some f ->
         exists z v f1 row f2,
           l !! (i + k)%nat = Some z /\
           update f z = (Ok v, f1) /\ predict f1 = (Ok (Some row), f2) /\
           out !! (i + k)%nat = Some row /\ fs' !! k = Some f2).
Proof.
  induction 1 as [| f fs Hf Hfs IH]; intros i smoothed Hlen Hsm.
  - exists smoothed, []. repeat split; try done.
  - simpl in Hlen. cbn [smooth_loop].
    destruct (lookup_lt_is_Some_2 l i) as [z Hz]; [lia |]. rewrite Hz.
    destruct (round_ok f z Hf) as (v & f1 & row & f2 & Hu & Hp & Hpost).
    rewrite Hu, Hp.
    destruct (IH (S i) (<[i := row]> smoothed)) as
      (out & fs' & -> & Hkeep & Hrounds);
      [lia | by rewrite length_insert |].
    exists out, (f2 :: fs'). split; [done |]. split.
    + intros j Hj. rewrite Hkeep by lia.
      apply list_lookup_insert_ne. lia.
    + intros [| k] f' Hk.
      * injection Hk as <-. exists z, v, f1, row, f2.
        rewrite Nat.add_0_r. repeat split; try done.
        rewrite Hkeep by lia. apply list_lookup_insert_eq. lia.
      * destruct (Hrounds k f' Hk) as (z' & v' & f1' & row' & f2' & H).
        exists z', v', f1', row', f2'.
        by replace (i + S k)%nat with (S i + k)%nat by lia.
Qed.

(** X4.  Smoothing works landmark by landmark: the smoothed row at an
    index, and the filter left at that index, depend only on the filter
    and the input row at that index, not on the other rows or filters. *)
Theorem smoothing_is_per_landmark (o o' : HandTrackingOptimizer.t)
    (l l' : landmarks) (i : nat) :
  reachable o -> reachable o' ->
  (21 <= length l)%nat -> (21 <= length l')%nat -> (i < 21)%nat ->
  kalman_filters o !! i = kalman_filters o' !! i ->
  l !! i = l' !! i ->
  exists out out',
    fst (smooth_landmarks o (Some l)) = Ok (Some out) /\
    fst (smooth_landmarks o' (Some l')) = Ok (Some out') /\
    out !! i = out' !! i /\
    kalman_filters (snd (smooth_landmarks o (Some l))) !! i
    = kalman_filters (snd (smooth_landmarks o' (Some l'))) !! i.
Proof.
  intros Hr Hr' Hl Hl' Hi Hf Hrow.
  destruct (reachable_ok o Hr) as [Hfs Hlen].
  destruct (reachable_ok o' Hr') as [Hfs' Hlen'].
  unfold smooth_landmarks.
  destruct (smooth_loop_rows l _ Hfs 0%nat (zeros_like l))
    as (out & fs1 & -> & _ & Hrounds); [lia | apply length_replicate |].
  destruct (smooth_loop_rows l' _ Hfs' 0%nat (zeros_like l'))
    as (out' & fs1' & -> & _ & Hrounds'); [lia | apply length_replicate |].
  exists out, out'. split; [done |]. split; [done |]. simpl.
  destruct (lookup_lt_is_Some_2 (kalman_filters o) i) as [f Hfi]; [lia |].
  destruct (Hrounds i f Hfi) as (z & v & f1 & row & f2 & Hz & Hu & Hp & Ho & Hn).
  rewrite Hf in Hfi.
  destruct (Hrounds' i f Hfi)
    as (z' & v' & f1' & row' & f2' & Hz' & Hu' & Hp' & Ho' & Hn').
  simpl in Hz, Hz', Ho, Ho'.
  rewrite Hrow, Hz' in Hz. injection Hz as <-.
  rewrite Hu in Hu'. injection Hu' as <- <-.
  rewrite Hp in Hp'. injection Hp' as <- <-.
  split; congruence.
Qed.

Lemma smoothing_is_per_landmark_witness :
  exists out out',
    fst (smooth_landmarks (fresh_optimizer 5) (Some closed_hand))
    = Ok (Some out) /\
    fst (smooth_landmarks (fresh_optimizer 5) (Some open_hand))
    = Ok (Some out') /\
    out !! 4%nat = out' !! 4%nat /\
    kalman_filters (snd (smooth_landmarks (fresh_optimizer 5)
                           (Some closed_hand))) !! 4%nat
    = kalman_filters (snd (smooth_landmarks (fresh_optimizer 5)
                             (Some open_hand))) !! 4%nat.
Proof.
  apply (smoothing_is_per_landmark (fresh_optimizer 5) (fresh_optimizer 5)
           closed_hand open_hand 4).
  - apply (reach_init 5%Z). reflexivity.
  - apply (reach_init 5%Z). reflexivity.
  - simpl. lia.
  - simpl. lia.
  - lia.
  - reflexivity.
  - reflexivity.
Defined.

Lemma smooth_loop_short_rows (l : landmarks) (fs : list KalmanFilter.t) :
  Forall filter_ok fs ->
  forall (i : nat) (smoothed : landmarks),
    (i <= length l < i + length fs)%nat ->
    exists fs',
      smooth_loop l i fs smoothed = (Raise IndexError, fs') /\
      (forall k, (length l <= i + k)%nat -> fs' !! k = fs !! k) /\
      (forall k f, (i + k < length l)%nat -> fs !! k = Some f ->
         exists z row f2,
           l !! (i + k)%nat = Some z /\ fs' !! k = Some f2 /\
           round_post f z row f2).
Proof.
  induction 1 as [| f fs Hf Hfs IH]; intros i smoothed Hlen.
  - simpl in Hlen. lia.
  - simpl in Hlen. cbn [smooth_loop].
    destruct (l !! i) as [z |] eqn:Hz.
    + pose proof (lookup_lt_Some _ _ _ Hz) as Hi.
      destruct (round_ok f z Hf) as (v & f1 & row & f2 & -> & -> & Hpost).
      destruct (IH (S i) (<[i := row]> smoothed)) as
        (fs' & -> & Hsame & Hdone); [lia |].
      exists (f2 :: fs'). split; [done |]. split.
      * intros [| k] Hk; [lia |]. simpl. apply Hsame. lia.
      * intros [| k] f' Hk Hf'.
        -- injection Hf' as <-. exists z, row, f2.
           by rewrite Nat.add_0_r.
        -- destruct (Hdone k f') as (z' & row' & f2' & H); [lia | done |].
           exists z', row', f2'.
           by replace (i + S k)%nat with (S i + k)%nat by lia.
    + apply lookup_ge_None in Hz.
      exists (f :: fs). split; [done |]. split; [done |].
      intros k f' Hk. lia.
Qed.

(** X5.  A call of [smooth_landmarks] that fails on an array with fewer
    than 21 rows is not undone: the filters of the rows that were there
    have taken their observation (they are initialized afterwards, a new
    one with that row as its estimate), the filters of the missing rows
    are as before. *)
Theorem short_array_is_partly_consumed (o : HandTrackingOptimizer.t)
    (l : landmarks) :
  reachable o -> (length l < 21)%nat ->
  fst (smooth_landmarks o (Some l)) = Raise IndexError /\
  (forall k, (length l <= k)%nat ->
     kalman_filters (snd (smooth_landmarks o (Some l))) !! k
     = kalman_filters o !! k) /\
  (forall k z, l !! k = Some z ->
     exists f f',
       kalman_filters o !! k = Some f /\
       kalman_filters (snd (smooth_landmarks o (Some l))) !! k = Some f' /\
       initialized f' = true /\
       (initialized f = false -> x f' = Some z)).
Proof.
  intros Hr Hl. destruct (reachable_ok o Hr) as [Hfs Hlen].
  unfold smooth_landmarks.
  destruct (smooth_loop_short_rows l _ Hfs 0%nat (zeros_like l))
    as (fs' & -> & Hsame & Hdone); [lia |].
  simpl. split; [done |]. split; [by intros k Hk; apply Hsame |].
  intros k z Hz. pose proof (lookup_lt_Some _ _ _ Hz) as Hk.
  destruct (lookup_lt_is_Some_2 (kalman_filters o) k) as [f Hf]; [lia |].
  destruct (Hdone k f) as (z' & row & f2 & Hz' & Hf2 & Hpost); [lia | done |].
  simpl in Hz'. rewrite Hz in Hz'. injection Hz' as <-.
  destruct Hpost as (_ & Hi & Hx & Hfresh & _).
  exists f, f2. repeat split; try done.
  intros Hun. by rewrite Hx, (Hfresh Hun).
Qed.

Lemma short_array_is_partly_consumed_witness :
  fst (smooth_landmarks (fresh_optimizer 5) (Some short_hand))
  = Raise IndexError /\
  (forall k, (length short_hand <= k)%nat ->
     kalman_filters (snd (smooth_landmarks (fresh_optimizer 5)
                            (Some short_hand))) !! k
     = kalman_filters (fresh_optimizer 5) !! k) /\
  (forall k z, short_hand !! k = Some z ->
     exists f f',
       kalman_filters (fresh_optimizer 5) !! k = Some f /\
       kalman_filters (snd (smooth_landmarks (fresh_optimizer 5)
                              (Some short_hand))) !! k = Some f' /\
       initialized f' = true /\
       (initialized f = false -> x f' = Some z)).
Proof.
  apply (short_array_is_partly_consumed (fresh_optimizer 5) short_hand).
  - apply (reach_init 5%Z). reflexivity.
  - simpl. lia.
Defined.

(** ** AdvancedGestureRecognizer: what the features read *)

Lemma distances_loop_raises (norm : Qc -> Qc -> Qc) (l : landmarks)
    (c : point) (idx : list nat) :
  Exists (fun i => (length l <= i)%nat) idx ->
  distances_loop norm l c idx = Raise IndexError.
Proof.
  induction 1 as [i idx Hbad | i idx _ IH]; cbn [distances_loop].
  - by rewrite (proj2 (lookup_ge_None l i) Hbad).
  - destruct (l !! i); [| done]. by rewrite IH.
Qed.

Lemma analyze_hand_shape_short (norm : Qc -> Qc -> Qc)
    (std : list Qc -> Qc) (l : landmarks) :
  (length l < 21)%nat -> _analyze_hand_shape norm std l = Raise IndexError.
Proof.
  intros Hl. unfold _analyze_hand_shape.
  destruct (l !! 0%nat) as [c |]; [| done].
  rewrite distances_loop_raises; [done |].
  do 4 apply Exists_cons_tl. apply Exists_cons_hd. lia.
Qed.

(** X6.  The two feature extractors need all 21 rows and nothing more:
    each returns a value exactly when the array has at least 21 rows and
    raises [IndexError] otherwise; the finger count is then between 0 and
    5. *)
Theorem features_need_21_rows (norm : Qc -> Qc -> Qc)
    (std : list Qc -> Qc) (l : landmarks) :
  (is_ok (_count_extended_fingers l) = true <-> (21 <= length l)%nat) /\
  (is_ok (_analyze_hand_shape norm std l) = true <-> (21 <= length l)%nat) /\
  (forall n, _count_extended_fingers l = Ok n -> (0 <= n <= 5)%Z) /\
  ((length l < 21)%nat ->
   _count_extended_fingers l = Raise IndexError /\
   _analyze_hand_shape norm std l = Raise IndexError).
Proof.
  destruct (decide (21 <= length l)%nat) as [Hl | Hl].
  - destruct (count_extended_fingers_ok l Hl) as (n & Hn & Hb).
    destruct (analyze_hand_shape_ok norm std l Hl) as (s & Hs).
    rewrite Hn, Hs. simpl.
    split; [done |]. split; [done |]. split; [| lia].
    intros n' [= <-]. lia.
  - rewrite count_extended_fingers_short, analyze_hand_shape_short by lia.
    simpl. split; [split; [done | lia] |]. split; [split; [done | lia] |].
    split; [done | done].
Qed.

Lemma features_need_21_rows_witness :
  _count_extended_fingers short_hand = Raise IndexError /\
  _analyze_hand_shape norm0 std0 short_hand = Raise IndexError.
Proof.
  apply (proj2 (proj2 (proj2 (features_need_21_rows norm0 std0 short_hand)))).
  simpl. lia.
Defined.

Lemma count_loop_same_heights (l l' : landmarks) (pairs : list (nat * nat)) :
  (forall i, py <$> l !! i = py <$> l' !! i) ->
  forall acc, count_loop l pairs acc = count_loop l' pairs acc.
Proof.
  intros Hy. induction pairs as [| [tip pip] pairs IH]; intros acc; [done |].
  cbn [count_loop].
  pose proof (Hy tip) as Ht. pose proof (Hy pip) as Hp.
  destruct (l !! tip) as [a |], (l' !! tip) as [a' |]; try discriminate Ht;
    [| done].
  destruct (l !! pip) as [b |], (l' !! pip) as [b' |]; try discriminate Hp;
    [| done].
  simpl in Ht, Hp. injection Ht as Ht. injection Hp as Hp.
  rewrite Ht, Hp. apply IH.
Qed.

Lemma count_loop_similar (l : landmarks) (v : point) (s : Qc)
    (pairs : list (nat * nat)) :
  0 < s ->
  forall acc,
    count_loop ((fun a => padd v (pscale s a)) <$> l) pairs acc
    = count_loop l pairs acc.
Proof.
  intros Hs. induction pairs as [| [tip pip] pairs IH]; intros acc; [done |].
  cbn [count_loop]. rewrite !list_lookup_fmap.
  destruct (l !! tip) as [a |]; [| done].
  destruct (l !! pip) as [b |]; [| done].
  simpl. rewrite IH.
  destruct (decide (py a < py b)) as [Hlt | Hge].
  - rewrite decide_True; [done |].
    apply Qcplus_lt_mono_l. by apply Qcmult_lt_mono_pos_l.
  - rewrite decide_False; [done |].
    intros H. apply Hge.
    apply Qcplus_lt_mono_l in H. by apply Qcmult_lt_mono_pos_l in H.
Qed.

(** X7.  The finger count looks at heights only, and only at their order:
    two arrays with the same y-coordinates give the same count, and moving
    the whole hand by a vector or scaling it by a positive factor does not
    change the count. *)
Theorem finger_count_reads_heights (l : landmarks) :
  (forall l' : landmarks,
     py <$> l = py <$> l' ->
     _count_extended_fingers l = _count_extended_fingers l') /\
  (forall (v : point) (s : Qc),
     0 < s ->
     _count_extended_fingers ((fun a => padd v (pscale s a)) <$> l)
     = _count_extended_fingers l).
Proof.
  split.
  - intros l' Hy. apply count_loop_same_heights.
    intros i. by rewrite <- !list_lookup_fmap, Hy.
  - intros v s Hs. by apply count_loop_similar.
Qed.

Lemma finger_count_reads_heights_witness :
  _count_extended_fingers
    ((fun a => padd (pt 3 4 5) (pscale 2 a)) <$> open_hand)
  = _count_extended_fingers open_hand.
Proof.
  apply (proj2 (finger_count_reads_heights open_hand) (pt 3 4 5) 2).
  reflexivity.
Defined.

Lemma gesture_scores_ignore_shape (g : AdvancedGestureRecognizer.t)
    (fingers : Z) (s s' : hand_shape) :
  gesture_scores g fingers s = gesture_scores g fingers s'.
Proof. reflexivity. Qed.

(** X8.  [detect_gesture] reads the landmark array through its heights
    only: two arrays with the same y-coordinates give the same result and
    the same history, whatever their x- and z-coordinates and whatever
    the shape descriptors come to. *)
Theorem detect_gesture_reads_heights (norm norm' : Qc -> Qc -> Qc)
    (std std' : list Qc -> Qc) (g : AdvancedGestureRecognizer.t)
    (l l' : landmarks) :
  py <$> l = py <$> l' ->
  detect_gesture norm std g (Some l) = detect_gesture norm' std' g (Some l').
Proof.
  intros Hy.
  assert (Hlen : length l = length l').
  { by rewrite <- (length_fmap py l), Hy, length_fmap. }
  assert (Hc : _count_extended_fingers l = _count_extended_fingers l').
  { apply count_loop_same_heights.
    intros i. by rewrite <- !list_lookup_fmap, Hy. }
  unfold detect_gesture. rewrite Hc.
  destruct (decide (21 <= length l)%nat) as [Hl | Hl].
  - destruct (count_extended_fingers_ok l') as (n & -> & _); [lia |].
    destruct (analyze_hand_shape_ok norm std l Hl) as (s & ->).
    destruct (analyze_hand_shape_ok norm' std' l') as (s' & ->); [lia |].
    by rewrite (gesture_scores_ignore_shape g n s s').
  - by rewrite (count_extended_fingers_short l') by lia.
Qed.

Lemma detect_gesture_reads_heights_witness :
  detect_gesture norm0 std0 (fresh_recognizer 10) (Some closed_hand)
  = detect_gesture (fun dx dy => dx + dy) std0 (fresh_recognizer 10)
      (Some (replicate 21 (pt 5 0 7))).
Proof.
  apply (detect_gesture_reads_heights norm0 (fun dx dy => dx + dy) std0 std0
           (fresh_recognizer 10) closed_hand (replicate 21 (pt 5 0 7))).
  reflexivity.
Defined.

Lemma min_le_first (a b : Qc) : Py.min a b ≤ a.
Proof.
  unfold Py.min. destruct (decide (b < a)); [by apply Qclt_le_weak | done].
Qed.

(** X9.  The score of a definition never exceeds 1.0, whatever its
    weight; it is not negative when the weight is not; and it depends
    neither on the shape descriptors nor on the gesture name. *)
Theorem score_is_bounded (fingers : Z) (shape : hand_shape) (name : string)
    (d : definition) :
  _calculate_gesture_score fingers shape name d ≤ 1 /\
  (0 ≤ confidence_weight d ->
   0 ≤ _calculate_gesture_score fingers shape name d) /\
  (forall (shape' : hand_shape) (name' : string),
     _calculate_gesture_score fingers shape' name' d
     = _calculate_gesture_score fingers shape name d).
Proof.
  split; [apply min_le_first |]. split; [| done].
  intros Hw. unfold _calculate_gesture_score, Py.min, bool_times.
  destruct (fingers_extended d) as [n |].
  - destruct (bool_decide (fingers = n)).
    + replace (0 + 1 * confidence_weight d) with (confidence_weight d) by ring.
      by destruct (decide _).
    + replace (0 + 0 * confidence_weight d) with 0 by ring.
      by destruct (decide _).
  - by destruct (decide _).
Qed.

Lemma score_is_bounded_witness :
  0 ≤ _calculate_gesture_score 2 (HandShape 0 0 0) "peace"
        (Definition_ (Some 2%Z) (1 + 2)) /\
  _calculate_gesture_score 2 (HandShape 0 0 0) "peace"
    (Definition_ (Some 2%Z) (1 + 2)) ≤ 1.
Proof.
  split.
  - apply (proj1 (proj2 (score_is_bounded 2 (HandShape 0 0 0) "peace"
                           (Definition_ (Some 2%Z) (1 + 2))))).
    by vm_compute.
  - apply (proj1 (score_is_bounded 2 (HandShape 0 0 0) "peace"
                    (Definition_ (Some 2%Z) (1 + 2)))).
Defined.

(** ** AdvancedGestureRecognizer: the default table *)

(** The score table of a recognizer with the default definitions. *)
Lemma default_scores (g : AdvancedGestureRecognizer.t) (n : Z)
    (shape : hand_shape) :
  gesture_definitions g = _load_gestures ->
  gesture_scores g n shape
  = [ ("open_palm", if decide (n = 5%Z) then 1 else 0);
      ("fist", if decide (n = 0%Z) then f0_95 else 0);
      ("peace", if decide (n = 2%Z) then f0_9 else 0);
      ("thumbs_up", 0);
      ("point", if decide (n = 1%Z) then f0_88 else 0) ].
Proof.
  intros Hd. rewrite gesture_scores_map
    by (rewrite Hd; apply load_gestures_nodup).
  rewrite Hd. unfold _load_gestures. cbn [fmap list_fmap fst snd].
  rewrite (score_with_count n shape "open_palm" (Definition_ (Some 5%Z) 1)
             5%Z eq_refl) by (by vm_compute).
  rewrite (score_with_count n shape "fist" (Definition_ (Some 0%Z) f0_95)
             0%Z eq_refl) by (by vm_compute).
  rewrite (score_with_count n shape "peace" (Definition_ (Some 2%Z) f0_9)
             2%Z eq_refl) by (by vm_compute).
  rewrite (score_with_count n shape "point" (Definition_ (Some 1%Z) f0_88)
             1%Z eq_refl) by (by vm_compute).
  by rewrite (score_without_count n shape "thumbs_up"
                (Definition_ None f0_85) eq_refl).
Qed.

(** X10.  With the default table and threshold the result of
    [detect_gesture] on an array of at least 21 rows is fixed by the
    finger count: 5 gives [('open_palm', 1.0)], 0 gives [('fist', 0.95)],
    2 gives [('peace', 0.9)], 1 gives [('point', 0.88)], and 3 or 4 give
    [('unknown', 0.0)] with the history left as it is. *)
Theorem default_table_by_count (norm : Qc -> Qc -> Qc)
    (std : list Qc -> Qc) (g : AdvancedGestureRecognizer.t)
    (l : landmarks) (n : Z) :
  gesture_definitions g = _load_gestures ->
  confidence_threshold g = f0_7 ->
  (21 <= length l)%nat ->
  _count_extended_fingers l = Ok n ->
  let accept name score :=
    detect_gesture norm std g (Some l)
    = (Ok (name, score),
       set_gesture_history (Deque.append name (gesture_history g)) g) in
  (n = 5%Z -> accept "open_palm" 1) /\
  (n = 0%Z -> accept "fist" f0_95) /\
  (n = 2%Z -> accept "peace" f0_9) /\
  (n = 1%Z -> accept "point" f0_88) /\
  (n = 3%Z \/ n = 4%Z ->
   detect_gesture norm std g (Some l) = (Ok ("unknown", 0), g)).
Proof.
  intros Hd Ht Hl Hn. cbv zeta.
  destruct (analyze_hand_shape_ok norm std l Hl) as (shape & Hs).
  unfold detect_gesture. rewrite Hn, Hs, (default_scores g n shape Hd), Ht.
  repeat split.
  - intros ->. reflexivity.
  - intros ->. reflexivity.
  - intros ->. reflexivity.
  - intros ->. reflexivity.
  - intros [-> | ->]; reflexivity.
Qed.

Lemma default_table_by_count_witness :
  detect_gesture norm0 std0 (fresh_recognizer 10) (Some open_hand)
  = (Ok ("open_palm", 1),
     set_gesture_history
       (Deque.append "open_palm" (gesture_history (fresh_recognizer 10)))
       (fresh_recognizer 10)).
Proof.
  apply (proj1 (default_table_by_count norm0 std0 (fresh_recognizer 10)
                  open_hand 5 eq_refl eq_refl ltac:(simpl; lia) eq_refl)).
  reflexivity.
Defined.

(** ** AdvancedGestureRecognizer: what the history holds *)

Lemma last_n_all {A} (n : nat) (xs : list A) :
  (length xs <= n)%nat -> last_n n xs = xs.
Proof.
  intros H. unfold last_n.
  by replace (length xs - n)%nat with 0%nat by lia.
Qed.

Lemma last_n_cons {A} (n : nat) (a : A) (xs : list A) :
  (n <= length xs)%nat -> last_n n (a :: xs) = last_n n xs.
Proof.
  intros H. unfold last_n. simpl.
  by replace (S (length xs) - n)%nat with (S (length xs - n)) by lia.
Qed.

Lemma last_n_length {A} (n : nat) (xs : list A) :
  length (last_n n xs) = Nat.min n (length xs).
Proof. unfold last_n. rewrite length_drop. lia. Qed.

Lemma last_n_app {A} (n : nat) (xs ys : list A) :
  (n <= length xs)%nat -> last_n n xs ++ ys = drop (length xs - n) (xs ++ ys).
Proof.
  intros H. unfold last_n. by rewrite drop_app_le by lia.
Qed.

Lemma last_n_last_n_app {A} (n : nat) (xs ys : list A) :
  last_n n (last_n n xs ++ ys) = last_n n (xs ++ ys).
Proof.
  destruct (decide (length xs <= n)%nat) as [Hle | Hgt].
  - by rewrite (last_n_all n xs).
  - unfold last_n at 2. rewrite <- (take_drop (length xs - n) xs) at 3.
    rewrite <- app_assoc.
    set (pre := take (length xs - n) xs).
    set (suf := drop (length xs - n) xs).
    assert (Hsuf : length suf = n).
    { unfold suf. rewrite length_drop. lia. }
    clearbody pre suf. clear Hgt.
    induction pre as [| a pre IH]; [done |].
    simpl. rewrite last_n_cons; [done |].
    rewrite !length_app. lia.
Qed.

Lemma deque_append_last_n {A} (a : A) (d : Deque.t A) :
  (Deque.len d <= Deque.maxlen d)%nat ->
  Deque.items (Deque.append a d)
  = last_n (Deque.maxlen d) (Deque.items d ++ [a]).
Proof.
  unfold Deque.len, Deque.append, last_n. intros H. simpl.
  rewrite length_app. simpl.
  destruct (decide _) as [Hd | Hd].
  - by replace (length (Deque.items d) + 1 - Deque.maxlen d)%nat
      with 1%nat by lia.
  - by replace (length (Deque.items d) + 1 - Deque.maxlen d)%nat
      with 0%nat by lia.
Qed.

Lemma append_all_items {A} (xs : list A) :
  forall d : Deque.t A,
    (Deque.len d <= Deque.maxlen d)%nat ->
    Deque.maxlen (append_all xs d) = Deque.maxlen d /\
    Deque.items (append_all xs d)
    = last_n (Deque.maxlen d) (Deque.items d ++ xs).
Proof.
  induction xs as [| a xs IH]; intros d Hb.
  - simpl. split; [done |]. rewrite app_nil_r.
    symmetry. by apply last_n_all.
  - cbn [append_all].
    destruct (IH (Deque.append a d) (deque_append_bounded a d Hb)) as [Hm Hi].
    rewrite Hm, Hi, deque_append_maxlen. split; [done |].
    rewrite (deque_append_last_n a d Hb).
    rewrite last_n_last_n_app. by rewrite <- app_assoc.
Qed.

Lemma detect_gesture_memoryless (norm : Qc -> Qc -> Qc)
    (std : list Qc -> Qc) (g g' : AdvancedGestureRecognizer.t)
    (lm : option landmarks) :
  gesture_definitions g' = gesture_definitions g ->
  confidence_threshold g' = confidence_threshold g ->
  fst (detect_gesture norm std g' lm) = fst (detect_gesture norm std g lm).
Proof.
  intros Hd Ht. destruct lm as [l |]; [| done].
  unfold detect_gesture, gesture_scores. rewrite Hd, Ht.
  destruct (_count_extended_fingers l); [| done].
  destruct (_analyze_hand_shape norm std l); [| done].
  destruct (max_by_score _); [| done].
  by destruct (decide _).
Qed.

Lemma detect_gesture_history_step (norm : Qc -> Qc -> Qc)
    (std : list Qc -> Qc) (g : AdvancedGestureRecognizer.t)
    (lm : option landmarks) :
  0 < confidence_threshold g ->
  gesture_history (snd (detect_gesture norm std g lm))
  = match accepted_name (confidence_threshold g)
            (fst (detect_gesture norm std g lm)) with
    | Some name => Deque.append name (gesture_history g)
    | None => gesture_history g
    end.
Proof.
  intros Hthr.
  destruct (detect_gesture_cases norm std g lm)
    as [[Hg [Hr | [e Hr]]]
       | (l & fingers & shape & [name score] & _ & _ & _ & _ & Hge & E)].
  - rewrite Hg, Hr. simpl.
    rewrite decide_False; [done |]. by apply Qclt_not_le.
  - by rewrite Hg, Hr.
  - rewrite E. simpl in *. by rewrite decide_True.
Qed.

Lemma run_history (norm : Qc -> Qc -> Qc) (std : list Qc -> Qc)
    (inputs : list (option landmarks)) :
  forall g g0 : AdvancedGestureRecognizer.t,
    0 < confidence_threshold g0 ->
    gesture_definitions g = gesture_definitions g0 ->
    confidence_threshold g = confidence_threshold g0 ->
    gesture_history (run norm std g inputs)
    = append_all (accepted_names norm std g0 inputs) (gesture_history g).
Proof.
  induction inputs as [| lm inputs IH]; intros g g0 Hthr Hd Ht; [done |].
  cbn [run].
  destruct (detect_gesture_static norm std g lm) as (_ & Ht' & Hd' & _).
  rewrite (IH _ g0 Hthr) by congruence.
  rewrite detect_gesture_history_step by (by rewrite Ht).
  unfold accepted_names. cbn [omap list_omap].
  rewrite (detect_gesture_memoryless norm std g0 g lm) by done.
  rewrite Ht.
  by destruct (accepted_name _ _).
Qed.

(** The fields a run never writes. *)
Lemma run_static (norm : Qc -> Qc -> Qc) (std : list Qc -> Qc)
    (inputs : list (option landmarks)) :
  forall g : AdvancedGestureRecognizer.t,
    confidence_threshold (run norm std g inputs) = confidence_threshold g /\
    gesture_definitions (run norm std g inputs) = gesture_definitions g.
Proof.
  induction inputs as [| lm inputs IH]; intros g; [done |].
  cbn [run]. destruct (IH (snd (detect_gesture norm std g lm))) as [-> ->].
  destruct (detect_gesture_static norm std g lm) as (_ & Ht & Hd & _).
  done.
Qed.

(** C9.  However many frames are passed to [detect_gesture], the history
    never holds more names than the bound given at construction.  A call
    that accepts a gesture (it returns a name with a score that reaches the
    threshold) leaves the last [history_length] names of the old history
    followed by that name: the name is appended at the end when there is
    room, and when the history is full the oldest name goes and the others
    keep their order.  A call that returns the ['unknown'] pair or raises
    leaves the history as it is. *)
Theorem history_never_exceeds_capacity (norm : Qc -> Qc -> Qc)
    (std : list Qc -> Qc) (hl : Z)
    (g0 : AdvancedGestureRecognizer.t) (inputs : list (option landmarks)) :
  AdvancedGestureRecognizer.init hl = Ok g0 ->
  let g := run norm std g0 inputs in
  Deque.maxlen (gesture_history g) = Z.to_nat hl /\
  (Deque.len (gesture_history g) <= Z.to_nat hl)%nat /\
  forall lm : option landmarks,
    let r := detect_gesture norm std g lm in
    (forall name score,
       fst r = Ok (name, score) -> confidence_threshold g ≤ score ->
       get_gesture_pattern (snd r)
       = last_n (Z.to_nat hl) (get_gesture_pattern g ++ [name]) /\
       ((Deque.len (gesture_history g) < Z.to_nat hl)%nat ->
        get_gesture_pattern (snd r) = get_gesture_pattern g ++ [name]) /\
       (Deque.len (gesture_history g) = Z.to_nat hl -> (0 < Z.to_nat hl)%nat ->
        get_gesture_pattern (snd r)
        = drop 1 (get_gesture_pattern g) ++ [name])) /\
    (forall name score,
       fst r = Ok (name, score) -> score < confidence_threshold g ->
       get_gesture_pattern (snd r) = get_gesture_pattern g) /\
    (forall e,
       fst r = Raise e ->
       get_gesture_pattern (snd r) = get_gesture_pattern g).
Proof.
  intros Hinit. destruct (init_recognizer hl g0 Hinit) as [Hhl ->].
  destruct (run_bounded norm std inputs (fresh_recognizer (Z.to_nat hl)))
    as [Hb Hmax]; [unfold history_bounded, Deque.len; simpl; lia |].
  destruct (run_static norm std inputs (fresh_recognizer (Z.to_nat hl)))
    as [Hthr _].
  simpl in Hmax, Hthr. cbn zeta.
  set (g := run norm std (fresh_recognizer (Z.to_nat hl)) inputs) in *.
  unfold history_bounded in Hb. rewrite Hmax in Hb.
  split; [done |]. split; [done |].
  intros lm.
  assert (Hstep := detect_gesture_history_step norm std g lm).
  rewrite Hthr in Hstep. specialize (Hstep f0_7_pos).
  unfold get_gesture_pattern. rewrite Hstep, Hthr.
  split; [| split].
  - intros name score -> Hge. cbn [accepted_name].
    rewrite decide_True by done. split; [| split].
    + rewrite deque_append_last_n by lia. by rewrite Hmax.
    + intros Hlt. apply deque_append_room. lia.
    + intros Hfull Hpos. apply deque_append_full; lia.
  - intros name score -> Hlt. cbn [accepted_name].
    rewrite decide_False; [done |]. by apply Qclt_not_le.
  - by intros e ->.
Qed.

Lemma history_never_exceeds_capacity_witness :
  let g := run norm0 std0 (fresh_recognizer 2)
             [Some closed_hand; Some open_hand] in
  get_gesture_pattern g = ["fist"; "open_palm"] /\
  get_gesture_pattern (snd (detect_gesture norm0 std0 g (Some closed_hand)))
  = drop 1 (get_gesture_pattern g) ++ ["fist"] /\
  get_gesture_pattern (snd (detect_gesture norm0 std0 g None))
  = get_gesture_pattern g.
Proof.
  cbv zeta.
  destruct (history_never_exceeds_capacity norm0 std0 2 (fresh_recognizer 2)
              [Some closed_hand; Some open_hand] eq_refl)
    as (_ & _ & H).
  split; [vm_compute; reflexivity |]. split.
  - destruct (H (Some closed_hand)) as (Hacc & _ & _).
    apply (Hacc "fist"
             (snd (default ("", 0)
                     (match fst (detect_gesture norm0 std0
                                   (run norm0 std0 (fresh_recognizer 2)
                                      [Some closed_hand; Some open_hand])
                                   (Some closed_hand)) with
                      | Ok r => Some r
                      | Raise _ => None
                      end)))).
    + vm_compute. reflexivity.
    + by vm_compute.
    + reflexivity.
    + simpl. lia.
  - destruct (H None) as (_ & Hrej & _).
    apply (Hrej "unknown" 0).
    + reflexivity.
    + reflexivity.
Defined.

(** X11.  After any run of [detect_gesture] calls on a recognizer built
    by the constructor, the history holds exactly the last
    [history_length] names that were accepted, oldest first; frames that
    were rejected or raised leave no trace. *)
Theorem history_holds_last_accepted (norm : Qc -> Qc -> Qc)
    (std : list Qc -> Qc) (hl : Z) (g0 : AdvancedGestureRecognizer.t)
    (inputs : list (option landmarks)) :
  AdvancedGestureRecognizer.init hl = Ok g0 ->
  get_gesture_pattern (run norm std g0 inputs)
  = last_n (Z.to_nat hl) (accepted_names norm std g0 inputs).
Proof.
  intros Hinit. destruct (init_recognizer hl g0 Hinit) as [_ ->].
  unfold get_gesture_pattern.
  rewrite (run_history norm std inputs _ (fresh_recognizer (Z.to_nat hl)))
    by (done || exact f0_7_pos).
  by destruct (append_all_items
                 (accepted_names norm std (fresh_recognizer (Z.to_nat hl))
                    inputs)
                 (gesture_history (fresh_recognizer (Z.to_nat hl))))
    as [_ ->]; [unfold Deque.len; simpl; lia |].
Qed.

Lemma history_holds_last_accepted_witness :
  get_gesture_pattern
    (run norm0 std0 (fresh_recognizer 2)
       [Some closed_hand; Some short_hand; Some open_hand; None;
        Some closed_hand])
  = last_n (Z.to_nat 2)
      (accepted_names norm0 std0 (fresh_recognizer 2)
         [Some closed_hand; Some short_hand; Some open_hand; None;
          Some closed_hand]).
Proof.
  apply (history_holds_last_accepted norm0 std0 2 (fresh_recognizer 2)).
  reflexivity.
Defined.

Lemma accepted_name_default (norm : Qc -> Qc -> Qc) (std : list Qc -> Qc)
    (g : AdvancedGestureRecognizer.t) (lm : option landmarks)
    (name : string) :
  gesture_definitions g = _load_gestures ->
  confidence_threshold g = f0_7 ->
  accepted_name f0_7 (fst (detect_gesture norm std g lm)) = Some name ->
  name ∈ ["open_palm"; "fist"; "peace"; "point"].
Proof.
  intros Hd Ht.
  destruct (detect_gesture_cases norm std g lm)
    as [[_ [-> | [e ->]]]
       | (l & n & shape & [nm score] & _ & _ & _ & Harg & Hge & ->)].
  - unfold accepted_name. cbn [fst].
    destruct (decide (f0_7 ≤ 0)) as [H | H]; [| discriminate].
    exfalso. by apply (Qclt_not_le _ _ f0_7_pos).
  - discriminate.
  - unfold accepted_name. cbn [fst snd] in *. rewrite Ht in Hge.
    rewrite decide_True by done.
    intros [= <-].
    apply first_argmax_elem in Harg. rewrite (default_scores g n shape Hd) in Harg.
    assert (Hz : ~ f0_7 ≤ 0) by (by apply Qclt_not_le).
    rewrite !elem_of_cons in Harg.
    destruct Harg as [E | [E | [E | [E | [E | E]]]]];
      try (by apply elem_of_nil in E);
      injection E as -> ->;
      try (destruct (decide _); [| done]);
      try done;
      rewrite !elem_of_cons; auto 10.
Qed.

Lemma last_n_subseteq {A} (n : nat) (xs : list A) (a : A) :
  a ∈ last_n n xs -> a ∈ xs.
Proof. unfold last_n. apply (subseteq_drop _ xs). Qed.

(** X12.  The history of a recognizer built by the constructor only ever
    holds the four names [open_palm], [fist], [peace] and [point]; it
    never holds ['unknown'] or ['thumbs_up']. *)
Theorem history_holds_four_names (norm : Qc -> Qc -> Qc)
    (std : list Qc -> Qc) (hl : Z) (g0 : AdvancedGestureRecognizer.t)
    (inputs : list (option landmarks)) (name : string) :
  AdvancedGestureRecognizer.init hl = Ok g0 ->
  name ∈ get_gesture_pattern (run norm std g0 inputs) ->
  name ∈ ["open_palm"; "fist"; "peace"; "point"] /\
  name <> "unknown" /\ name <> "thumbs_up".
Proof.
  intros Hinit Hin.
  assert (H4 : name ∈ ["open_palm"; "fist"; "peace"; "point"]).
  { destruct (init_recognizer hl g0 Hinit) as [_ ->].
    unfold get_gesture_pattern in Hin.
    rewrite (run_history norm std inputs _ (fresh_recognizer (Z.to_nat hl)))
      in Hin by (done || exact f0_7_pos).
    destruct (append_all_items
                (accepted_names norm std (fresh_recognizer (Z.to_nat hl))
                   inputs)
                (gesture_history (fresh_recognizer (Z.to_nat hl))))
      as [_ E]; [unfold Deque.len; simpl; lia |].
    rewrite E in Hin. apply last_n_subseteq in Hin. simpl in Hin.
    unfold accepted_names in Hin.
    apply list_elem_of_omap in Hin as (lm & _ & Hacc).
    by apply (accepted_name_default norm std
                (fresh_recognizer (Z.to_nat hl)) lm). }
  split; [done |].
  rewrite !elem_of_cons in H4.
  destruct H4 as [-> | [-> | [-> | [-> | H]]]];
    try (by apply elem_of_nil in H); by split.
Qed.

Lemma history_holds_four_names_witness :
  "fist" ∈ ["open_palm"; "fist"; "peace"; "point"] /\
  "fist" <> "unknown" /\ "fist" <> "thumbs_up".
Proof.
  apply (history_holds_four_names norm0 std0 10 (fresh_recognizer 10)
           [Some open_hand; Some closed_hand] "fist").
  - reflexivity.
  - vm_compute. apply list_elem_of_In. simpl. auto.
Defined.

(** ** AdvancedGestureRecognizer: patterns over a run *)

Lemma combination_of_last_three (g : AdvancedGestureRecognizer.t)
    (pre : list string) (a b c : string) :
  Deque.items (gesture_history g) = pre ++ [a; b; c] ->
  detect_gesture_combination g
  = Some (if decide (a = b /\ b = c) then "sustained_" +:+ a
          else "combination").
Proof.
  intros E. unfold detect_gesture_combination, Deque.len. rewrite E.
  rewrite decide_False by (rewrite length_app; simpl; lia).
  rewrite drop_last_three.
  destruct (decide (a = b /\ b = c)) as [H | H].
  - rewrite decide_True; [done | by apply set_of_three_size].
  - rewrite decide_False; [done |]. by rewrite set_of_three_size.
Qed.

(** X13.  A recognizer built with [history_length] below 3 never reports
    a pattern: [detect_gesture_combination] returns [None] after every
    run. *)
Theorem small_history_has_no_pattern (norm : Qc -> Qc -> Qc)
    (std : list Qc -> Qc) (hl : Z) (g0 : AdvancedGestureRecognizer.t)
    (inputs : list (option landmarks)) :
  AdvancedGestureRecognizer.init hl = Ok g0 -> (hl < 3)%Z ->
  detect_gesture_combination (run norm std g0 inputs) = None.
Proof.
  intros Hinit Hhl. destruct (init_recognizer hl g0 Hinit) as [H0 ->].
  destruct (run_bounded norm std inputs (fresh_recognizer (Z.to_nat hl)))
    as [Hb Hmax]; [unfold history_bounded, Deque.len; simpl; lia |].
  unfold history_bounded in Hb. rewrite Hmax in Hb. simpl in Hb.
  unfold detect_gesture_combination. rewrite decide_True; [done | lia].
Qed.

Lemma small_history_has_no_pattern_witness :
  detect_gesture_combination
    (run norm0 std0 (fresh_recognizer 2)
       [Some closed_hand; Some closed_hand; Some closed_hand])
  = None.
Proof.
  apply (small_history_has_no_pattern norm0 std0 2 (fresh_recognizer 2)).
  - reflexivity.
  - lia.
Defined.

(** X14.  On a recognizer built with [history_length] of at least 3, the
    pattern after a run is decided by the last three accepted names alone,
    however many rejected or failing frames lie between them: the same
    name three times gives ['sustained_' + name], anything else
    ['combination']; with fewer than three accepted names it is [None]. *)
Theorem pattern_of_last_three_accepted (norm : Qc -> Qc -> Qc)
    (std : list Qc -> Qc) (hl : Z) (g0 : AdvancedGestureRecognizer.t)
    (inputs : list (option landmarks)) :
  AdvancedGestureRecognizer.init hl = Ok g0 -> (3 <= hl)%Z ->
  ((length (accepted_names norm std g0 inputs) < 3)%nat ->
   detect_gesture_combination (run norm std g0 inputs) = None) /\
  (forall (pre : list string) (a b c : string),
     accepted_names norm std g0 inputs = pre ++ [a; b; c] ->
     detect_gesture_combination (run norm std g0 inputs)
     = Some (if decide (a = b /\ b = c) then "sustained_" +:+ a
             else "combination")).
Proof.
  intros Hinit Hhl.
  pose proof (history_items := run_history norm std inputs g0 g0).
  destruct (init_recognizer hl g0 Hinit) as [_ E0].
  assert (Hpat : Deque.items (gesture_history (run norm std g0 inputs))
                 = last_n (Z.to_nat hl) (accepted_names norm std g0 inputs)).
  { subst g0. rewrite history_items by (done || exact f0_7_pos).
    by destruct (append_all_items
                   (accepted_names norm std (fresh_recognizer (Z.to_nat hl))
                      inputs)
                   (gesture_history (fresh_recognizer (Z.to_nat hl))))
      as [_ ->]; [unfold Deque.len; simpl; lia |]. }
  split.
  - intros Hlen. unfold detect_gesture_combination, Deque.len.
    rewrite Hpat, last_n_length, decide_True; [done | lia].
  - intros pre a b c Hacc. rewrite Hacc in Hpat.
    unfold last_n in Hpat. rewrite drop_app_le in Hpat
      by (rewrite length_app; simpl; lia).
    by apply (combination_of_last_three _ _ a b c Hpat).
Qed.

Lemma pattern_of_last_three_accepted_witness :
  detect_gesture_combination
    (run norm0 std0 (fresh_recognizer 10)
       [Some open_hand; Some closed_hand; None; Some closed_hand;
        Some short_hand; Some closed_hand])
  = Some (if decide ("fist" = "fist" /\ "fist" = "fist")
          then "sustained_" +:+ "fist" else "combination").
Proof.
  apply (proj2 (pattern_of_last_three_accepted norm0 std0 10
                  (fresh_recognizer 10)
                  [Some open_hand; Some closed_hand; None; Some closed_hand;
                   Some short_hand; Some closed_hand]
                  eq_refl ltac:(lia))
           ["open_palm"] "fist" "fist" "fist").
  vm_compute. reflexivity.
Defined.

(** ** main.py: GestureRecognizer *)

Lemma landmark_at (l : landmarks) (i : nat) :
  (i < length l)%nat -> Main.landmark l i = Ok (lm_at l i).
Proof.
  intros Hi. unfold Main.landmark, lm_at.
  by destruct (lookup_lt_is_Some_2 l i Hi) as [a ->].
Qed.

Lemma landmark_short (l : landmarks) (i : nat) :
  (length l <= i)%nat -> Main.landmark l i = Raise IndexError.
Proof.
  intros Hi. unfold Main.landmark.
  by rewrite (proj2 (lookup_ge_None l i) Hi).
Qed.

Lemma landmark_raises (l : landmarks) (i : nat) (e : exn) :
  Main.landmark l i = Raise e -> e = IndexError.
Proof. unfold Main.landmark. destruct (l !! i); congruence. Qed.

Lemma fingers_loop_raises (l : landmarks) (pairs : list (nat * nat)) :
  Exists (fun tp => (length l <= fst tp)%nat \/ (length l <= snd tp)%nat)
    pairs ->
  forall fingers, Main.fingers_loop l pairs fingers = Raise IndexError.
Proof.
  induction 1 as [[tip pip] pairs Hbad | [tip pip] pairs _ IH];
    intros fingers; cbn [Main.fingers_loop].
  - simpl in Hbad.
    destruct (Main.landmark l tip) as [a | e] eqn:Ea;
      [| by rewrite (landmark_raises _ _ _ Ea)].
    destruct (Main.landmark l pip) as [b | e] eqn:Eb;
      [| by rewrite (landmark_raises _ _ _ Eb)].
    unfold Main.landmark in Ea, Eb.
    destruct (l !! tip) eqn:Et; [| discriminate].
    destruct (l !! pip) eqn:Ep; [| discriminate].
    apply lookup_lt_Some in Et, Ep. lia.
  - destruct (Main.landmark l tip) as [a | e] eqn:Ea;
      [| by rewrite (landmark_raises _ _ _ Ea)].
    destruct (Main.landmark l pip) as [b | e] eqn:Eb;
      [| by rewrite (landmark_raises _ _ _ Eb)].
    apply IH.
Qed.

Lemma get_fingers_up_flags (l : landmarks) :
  (21 <= length l)%nat -> Main._get_fingers_up l = Ok (finger_flags l).
Proof.
  intros Hl. unfold Main._get_fingers_up, Main.fingers_loop.
  by rewrite !landmark_at by lia.
Qed.

Lemma get_fingers_up_short (l : landmarks) :
  (length l < 21)%nat -> Main._get_fingers_up l = Raise IndexError.
Proof.
  intros Hl. unfold Main._get_fingers_up.
  destruct (Main.landmark l 4) as [a | e] eqn:Ea;
    [| by rewrite (landmark_raises _ _ _ Ea)].
  destruct (Main.landmark l 3) as [b | e] eqn:Eb;
    [| by rewrite (landmark_raises _ _ _ Eb)].
  apply fingers_loop_raises.
  do 3 apply Exists_cons_tl. apply Exists_cons_hd. simpl. lia.
Qed.

(** The chain of tests of [recognize] on the five flags. *)
Lemma recognize_flags (sqrt : Qc -> Qc) (l : landmarks) (t i m r p : bool) :
  (21 <= length l)%nat -> finger_flags l = [t; i; m; r; p] ->
  Main.recognize sqrt l
  = if t && i && m && r && p then Ok "Open Hand"
    else if negb (t || i || m || r || p) then Ok "Closed Fist"
    else if i && negb (m || r || p) then Ok "Pointing"
    else if i && m && negb (r || p) then Ok "Peace Sign"
    else if t && negb (i || m || r || p) then Ok "Thumbs Up"
    else if t && i then
      if decide (Main.calculate_distance sqrt (lm_at l 4) (lm_at l 8)
                 < Main.f0_05)
      then Ok "Pinch" else Ok "Unknown"
    else Ok "Unknown".
Proof.
  intros Hl Hf. unfold Main.recognize, Main.pinch_branch.
  rewrite (get_fingers_up_flags l Hl), Hf, !landmark_at by lia.
  by destruct t, i, m, r, p.
Qed.

(** X16.  [recognize] needs all 21 landmarks: on a shorter list it raises
    [IndexError], on a list of at least 21 it returns one of its seven
    labels. *)
Theorem recognize_needs_21_landmarks (sqrt : Qc -> Qc) (l : landmarks) :
  ((length l < 21)%nat -> Main.recognize sqrt l = Raise IndexError) /\
  ((21 <= length l)%nat ->
   exists label,
     Main.recognize sqrt l = Ok label /\
     label ∈ ["Open Hand"; "Closed Fist"; "Pointing"; "Peace Sign";
              "Thumbs Up"; "Pinch"; "Unknown"]).
Proof.
  split.
  - intros Hl. unfold Main.recognize. by rewrite get_fingers_up_short.
  - intros Hl.
    rewrite (recognize_flags sqrt l _ _ _ _ _ Hl eq_refl).
    repeat (destruct (bool_decide _));
      cbn [andb orb negb]; try destruct (decide _);
      eexists; (split; [reflexivity |]);
      rewrite !elem_of_cons; auto 10.
Qed.

Lemma recognize_needs_21_landmarks_witness :
  Main.recognize (fun q => q) short_hand = Raise IndexError /\
  exists label,
    Main.recognize (fun q => q) closed_hand = Ok label /\
    label ∈ ["Open Hand"; "Closed Fist"; "Pointing"; "Peace Sign";
             "Thumbs Up"; "Pinch"; "Unknown"].
Proof.
  split.
  - apply (proj1 (recognize_needs_21_landmarks (fun q => q) short_hand)).
    simpl. lia.
  - apply (proj2 (recognize_needs_21_landmarks (fun q => q) closed_hand)).
    simpl. lia.
Defined.

(** X17.  Which hand gets which label, for a list of at least 21
    landmarks with flags thumb, index, middle, ring, pinky: ['Pointing']
    and ['Peace Sign'] do not look at the thumb; ['Pinch'] is returned
    only when thumb and index are up together with the ring or the little
    finger (but not all five) and the two tips are closer than 0.05, so a
    hand with only thumb and index up is ['Pointing'], never ['Pinch']. *)
Theorem recognize_decision (sqrt : Qc -> Qc) (l : landmarks)
    (t i m r p : bool) :
  (21 <= length l)%nat -> finger_flags l = [t; i; m; r; p] ->
  (Main.recognize sqrt l = Ok "Open Hand" <->
   t && i && m && r && p = true) /\
  (Main.recognize sqrt l = Ok "Closed Fist" <->
   t || i || m || r || p = false) /\
  (Main.recognize sqrt l = Ok "Pointing" <->
   i && negb m && negb r && negb p = true) /\
  (Main.recognize sqrt l = Ok "Peace Sign" <->
   i && m && negb r && negb p = true) /\
  (Main.recognize sqrt l = Ok "Thumbs Up" <->
   t && negb i && negb m && negb r && negb p = true) /\
  (Main.recognize sqrt l = Ok "Pinch" <->
   t && i && (r || p) && negb (m && r && p) = true /\
   Main.calculate_distance sqrt (lm_at l 4) (lm_at l 8) < Main.f0_05).
Proof.
  intros Hl Hf. rewrite (recognize_flags sqrt l t i m r p Hl Hf).
  destruct t, i, m, r, p; cbn [andb orb negb];
    try destruct (decide (_ < Main.f0_05)) as [Hd | Hd];
    repeat split;
    try done; try discriminate;
    try (intros [H1 H2]; done);
    try (intros [H1 H2]; discriminate H1).
Qed.

Lemma recognize_decision_witness :
  Main.recognize (fun q => q) closed_hand = Ok "Closed Fist".
Proof.
  apply (proj1 (proj2 (recognize_decision (fun q => q) closed_hand
                         false false false false false
                         ltac:(simpl; lia) eq_refl))).
  reflexivity.
Defined.

Lemma lm_at_fmap (f : point -> point) (l : landmarks) (i : nat) :
  (i < length l)%nat -> lm_at (f <$> l) i = f (lm_at l i).
Proof.
  intros Hi. unfold lm_at. rewrite list_lookup_fmap.
  by destruct (lookup_lt_is_Some_2 l i Hi) as [a ->].
Qed.

Lemma calculate_distance_translate (sqrt : Qc -> Qc) (v a b : point) :
  Main.calculate_distance sqrt (padd v a) (padd v b)
  = Main.calculate_distance sqrt a b.
Proof. unfold Main.calculate_distance. f_equal. simpl. ring. Qed.

Lemma finger_flags_translate (v : point) (l : landmarks) :
  (21 <= length l)%nat -> finger_flags (padd v <$> l) = finger_flags l.
Proof.
  intros Hl. unfold finger_flags. rewrite !lm_at_fmap by lia.
  repeat f_equal; apply bool_decide_ext; simpl; symmetry;
    apply Qcplus_lt_mono_l.
Qed.

(** X18.  [recognize] does not depend on where the hand is: moving all
    landmarks by the same vector changes neither the label nor the
    error. *)
Theorem recognize_ignores_position (sqrt : Qc -> Qc) (v : point)
    (l : landmarks) :
  Main.recognize sqrt (padd v <$> l) = Main.recognize sqrt l.
Proof.
  destruct (decide (21 <= length l)%nat) as [Hl | Hl].
  - assert (Hl' : (21 <= length (padd v <$> l))%nat)
      by (by rewrite length_fmap).
    destruct (finger_flags l) as [| t [| i [| m [| r [| p [| ? ?]]]]]] eqn:Hf;
      try discriminate Hf.
    rewrite (recognize_flags sqrt _ t i m r p Hl')
      by (by rewrite finger_flags_translate).
    rewrite (recognize_flags sqrt l t i m r p Hl Hf).
    by rewrite !lm_at_fmap, calculate_distance_translate by lia.
  - unfold Main.recognize.
    rewrite !get_fingers_up_short; [done | lia | rewrite length_fmap; lia].
Qed.

(** ** main.py: the keyboard *)

Lemma low_byte_period (k : Z) : Z.land (k + 256) 255 = Z.land k 255.
Proof.
  change 255%Z with (Z.ones 8). rewrite !Z.land_ones by lia.
  change (2 ^ 8)%Z with 256%Z.
  replace (k + 256)%Z with (k + 1 * 256)%Z by lia.
  apply Z_mod_plus_full.
Qed.

Lemma handle_key_flags (fl fl1 : Main.flags) (k : Z) :
  Main.handle_key fl k = Some fl1 ->
  Main.show_hud fl1
  = xorb (Main.show_hud fl) (bool_decide (Z.land k 255 = Main.ord "h")) /\
  Main.show_gestures fl1
  = xorb (Main.show_gestures fl)
      (bool_decide (Z.land k 255 = Main.ord "g")) /\
  Main.show_debug fl1
  = xorb (Main.show_debug fl) (bool_decide (Z.land k 255 = Main.ord "d")).
Proof.
  unfold Main.handle_key. destruct fl as [h g d]. cbn [Main.show_hud
    Main.show_gestures Main.show_debug].
  destruct (decide (_ \/ _)) as [Hq | Hq]; [discriminate |].
  destruct (decide (Z.land k 255 = Main.ord "h")) as [Eh | Eh].
  - intros [= <-]. simpl. rewrite Eh.
    by destruct h, g, d.
  - destruct (decide (Z.land k 255 = Main.ord "g")) as [Eg | Eg].
    + intros [= <-]. simpl. rewrite Eg. by destruct h, g, d.
    + destruct (decide (Z.land k 255 = Main.ord "d")) as [Ed | Ed].
      * intros [= <-]. simpl. rewrite Ed. by destruct h, g, d.
      * intros [= <-]. simpl.
        rewrite !bool_decide_false by done. by destruct h, g, d.
Qed.

Lemma handle_key_quits (fl : Main.flags) (k : Z) :
  Main.handle_key fl k = None <->
  Z.land k 255 = Main.ord "q" \/ Z.land k 255 = 27%Z.
Proof.
  unfold Main.handle_key.
  destruct (decide (_ \/ _)) as [Hq | Hq]; [done |].
  split; [| done].
  repeat (destruct (decide _); [discriminate |]). discriminate.
Qed.

(** X19.  The keyboard step of the main loop looks at the low byte of the
    key code only.  It leaves the loop exactly on [q] and on ESC (27);
    pressing any other key twice gives back the flags as they were; "no
    key" (-1) changes nothing. *)
Theorem handle_key_spec (fl : Main.flags) (k : Z) :
  (Main.handle_key fl k = None <->
   Z.land k 255 = Main.ord "q" \/ Z.land k 255 = 27%Z) /\
  (forall fl1 fl2,
     Main.handle_key fl k = Some fl1 -> Main.handle_key fl1 k = Some fl2 ->
     fl2 = fl) /\
  Main.handle_key fl (k + 256) = Main.handle_key fl k /\
  Main.handle_key fl (-1) = Some fl.
Proof.
  split; [apply handle_key_quits | split; [| split]].
  - intros fl1 fl2 H1 H2.
    destruct (handle_key_flags fl fl1 k H1) as (Hh & Hg & Hd).
    destruct (handle_key_flags fl1 fl2 k H2) as (Hh' & Hg' & Hd').
    destruct fl as [h g d], fl2 as [h2 g2 d2]. simpl in *.
    rewrite Hh in Hh'. rewrite Hg in Hg'. rewrite Hd in Hd'.
    rewrite Hh', Hg', Hd'.
    by rewrite !xorb_assoc, !xorb_nilpotent, !xorb_false_r.
  - unfold Main.handle_key. by rewrite low_byte_period.
  - reflexivity.
Qed.

Lemma handle_key_spec_witness :
  Main.handle_key Main.initial_flags (Main.ord "q" + 256) = None /\
  {| Main.show_hud := true; Main.show_gestures := true;
     Main.show_debug := false |} = Main.initial_flags.
Proof.
  split.
  - apply (proj2 (proj1 (handle_key_spec Main.initial_flags
                           (Main.ord "q" + 256)))).
    left. reflexivity.
  - apply (proj1 (proj2 (handle_key_spec Main.initial_flags (Main.ord "h")))
             {| Main.show_hud := false; Main.show_gestures := true;
                Main.show_debug := false |}
             {| Main.show_hud := true; Main.show_gestures := true;
                Main.show_debug := false |});
      reflexivity.
Defined.

Lemma key_count_cons (c : Ascii.ascii) (k : Z) (keys : list Z) :
  Nat.odd (key_count c (k :: keys))
  = xorb (bool_decide (Z.land k 255 = Main.ord c))
      (Nat.odd (key_count c keys)).
Proof.
  unfold key_count. rewrite filter_cons.
  destruct (decide (Z.land k 255 = Main.ord c)) as [E | E].
  - rewrite bool_decide_true by done.
    cbn [length]. rewrite Nat.odd_succ, <- Nat.negb_odd.
    by destruct (Nat.odd _).
  - by rewrite bool_decide_false by done.
Qed.

(** X20.  Over a run of key codes that does not leave the loop, each flag
    ends up flipped exactly when its key ([h], [g], [d]) came an odd
    number of times; the run leaves the loop exactly when [q] or ESC is
    among the keys. *)
Theorem run_keys_parity (keys : list Z) (fl : Main.flags) :
  (forall fl',
     Main.run_keys fl keys = Some fl' ->
     Main.show_hud fl'
     = xorb (Main.show_hud fl) (Nat.odd (key_count "h" keys)) /\
     Main.show_gestures fl'
     = xorb (Main.show_gestures fl) (Nat.odd (key_count "g" keys)) /\
     Main.show_debug fl'
     = xorb (Main.show_debug fl) (Nat.odd (key_count "d" keys))) /\
  (Main.run_keys fl keys = None <->
   exists k, k ∈ keys /\
             (Z.land k 255 = Main.ord "q" \/ Z.land k 255 = 27%Z)).
Proof.
  revert fl. induction keys as [| k keys IH]; intros fl.
  - split.
    + intros fl' [= <-]. simpl. by rewrite !xorb_false_r.
    + split; [discriminate |]. intros (k & Hk & _).
      by apply elem_of_nil in Hk.
  - cbn [Main.run_keys].
    destruct (Main.handle_key fl k) as [fl1 |] eqn:E.
    + destruct (IH fl1) as [IHf IHq]. split.
      * intros fl' Hrun.
        destruct (IHf fl' Hrun) as (Hh & Hg & Hd).
        destruct (handle_key_flags fl fl1 k E) as (Hh1 & Hg1 & Hd1).
        rewrite Hh, Hg, Hd, Hh1, Hg1, Hd1, !key_count_cons.
        by rewrite !xorb_assoc.
      * rewrite IHq. split.
        -- intros (k' & Hk' & Hq). exists k'. split; [by right | done].
        -- intros (k' & Hk' & Hq).
           apply elem_of_cons in Hk' as [-> | Hk'].
           ++ apply (proj2 (handle_key_quits fl k)) in Hq.
              rewrite E in Hq. discriminate Hq.
           ++ by exists k'.
    + split; [discriminate |]. split; [| done].
      intros _. exists k. split; [by left |].
      by apply (proj1 (handle_key_quits fl k)).
Qed.

Lemma run_keys_parity_witness :
  Main.show_hud
    {| Main.show_hud := false; Main.show_gestures := true;
       Main.show_debug := true |}
  = xorb (Main.show_hud Main.initial_flags)
      (Nat.odd (key_count "h"
                  [Main.ord "h"; -1; Main.ord "d"; Main.ord "h";
                   Main.ord "h" + 256]%Z)).
Proof.
  apply (proj1 (run_keys_parity
                  [Main.ord "h"; -1; Main.ord "d"; Main.ord "h";
                   Main.ord "h" + 256]%Z
                  Main.initial_flags)
           {| Main.show_hud := false; Main.show_gestures := true;
              Main.show_debug := true |}).
  reflexivity.
Defined.

(** ** main.py: the frame rate *)

(** X21.  The frame rate of the main loop is 0 on the first frame (no
    earlier time stamp); afterwards it is [1 / (curr_time - prev_time)],
    positive when time has moved on, and the division raises
    [ZeroDivisionError] when two frames carry the same time stamp. *)
Theorem fps_spec (prev_time curr_time : Qc) :
  (prev_time ≤ 0 -> Main.fps prev_time curr_time = Ok 0) /\
  (0 < prev_time -> curr_time = prev_time ->
   Main.fps prev_time curr_time = Raise ZeroDivisionError) /\
  (0 < prev_time -> curr_time <> prev_time ->
   Main.fps prev_time curr_time = Ok (1 / (curr_time - prev_time))) /\
  (0 < prev_time -> prev_time < curr_time ->
   exists v, Main.fps prev_time curr_time = Ok v /\ 0 < v).
Proof.
  unfold Main.fps. split; [| split; [| split]].
  - intros H. rewrite decide_False; [done |]. by apply Qcle_not_lt.
  - intros Hp ->. rewrite decide_True by done.
    rewrite decide_True; [done | ring].
  - intros Hp Hne. rewrite decide_True by done.
    rewrite decide_False; [done |].
    intros H. apply Hne.
    replace curr_time with (curr_time - prev_time + prev_time) by ring.
    rewrite H. ring.
  - intros Hp Hlt. rewrite decide_True by done.
    assert (Hd : 0 < curr_time - prev_time).
    { apply Qclt_minus_iff in Hlt.
      by replace (curr_time - prev_time) with (curr_time + - prev_time)
        by ring. }
    rewrite decide_False by (by apply Qc_pos_neq0).
    eexists. split; [reflexivity |].
    unfold Qcdiv. rewrite Qcmult_1_l. by apply Qcinv_pos.
Qed.

Lemma fps_spec_witness :
  Main.fps 0 1 = Ok 0 /\
  Main.fps 1 1 = Raise ZeroDivisionError /\
  Main.fps 1 2 = Ok (1 / (2 - 1)) /\
  exists v, Main.fps 1 2 = Ok v /\ 0 < v.
Proof.
  split; [| split; [| split]].
  - apply (proj1 (fps_spec 0 1)). by vm_compute.
  - apply (proj1 (proj2 (fps_spec 1 1))); reflexivity.
  - apply (proj1 (proj2 (proj2 (fps_spec 1 2)))); [reflexivity |].
    intros H. apply (f_equal (fun c => Qnum (this c))) in H.
    vm_compute in H. discriminate H.
  - apply (proj2 (proj2 (proj2 (fps_spec 1 2)))); reflexivity.
Defined.
